(** * A shallow embedding of the Periplus book scraper (scraper.py)

  The development follows the source file top-down:

  - [PyStr]   : the few Python string primitives the scraper relies on
                ([str.strip], [in], [startswith], [quote_plus]);
  - [Soup]    : the part of the BeautifulSoup / soupsieve interface that
                [DataScraper] calls ([select], [select_one], [find_all],
                [get], [get_text(strip=True)], [str(tag)]);
  - [Scraper] : [models.py], [config.py] and the methods of [DataScraper],
                written in a state-and-exception monad whose state holds
                [self.errors], [self.session] and the observable effects
                (HTTP requests, [asyncio.sleep] calls, files handed to the
                sink).
  - [Scraper.Main] : from [main.py], [create_custom_config] and the
                category selection of [run_multiple_categories_scraper].

  [logger] calls are left out: they neither change control flow nor any
  value the program computes. *)

From Stdlib Require Import ZArith QArith String Ascii List Lia.
From stdpp Require Import base strings list gmap pretty.

Import ListNotations.
Set Warnings "-register-all".
Local Open Scope string_scope.
Local Open Scope Z_scope.

(* ===================================================================== *)
(** ** Python string primitives                                           *)
(* ===================================================================== *)

Module PyStr.

(** [str.isspace] on the ASCII range: TAB..CR, FS..US and SPACE. *)
Definition isspace (c : ascii) : bool :=
  let n := nat_of_ascii c in
  ((9 <=? n)%nat && (n <=? 13)%nat) || ((28 <=? n)%nat && (n <=? 32)%nat).

Fixpoint lstrip (s : string) : string :=
  match s with
  | String c s' => if isspace c then lstrip s' else s
  | EmptyString => EmptyString
  end.

Definition rstrip (s : string) : string := String.rev (lstrip (String.rev s)).

(** [s.strip()] *)
Definition strip (s : string) : string := rstrip (lstrip s).

(** [s.startswith(p)] *)
Definition startswith (s p : string) : bool := String.prefix p s.

(** [needle in hay] *)
Fixpoint contains (needle hay : string) : bool :=
  String.prefix needle hay ||
  match hay with
  | String _ hay' => contains needle hay'
  | EmptyString => false
  end.

(** Truthiness of a [str]: [bool(s)]. *)
Definition truthy (s : string) : bool :=
  match s with EmptyString => false | _ => true end.

(** [''.join(l)] *)
Definition join (l : list string) : string := fold_right String.append "" l.

(** [s.replace(c, by)] for a one-character pattern. *)
Fixpoint replace_char (c : ascii) (by_ : string) (s : string) : string :=
  match s with
  | String a s' =>
      (if Ascii.eqb a c then by_ else String a "") +:+ replace_char c by_ s'
  | EmptyString => EmptyString
  end.

Definition hex_digit (n : nat) : ascii :=
  ascii_of_nat (if (n <? 10)%nat then 48 + n else 55 + n)%nat.

(** Characters [urllib.parse.quote_plus] never escapes. *)
Definition unreserved (c : ascii) : bool :=
  let n := nat_of_ascii c in
  ((48 <=? n)%nat && (n <=? 57)%nat)
  || ((65 <=? n)%nat && (n <=? 90)%nat)
  || ((97 <=? n)%nat && (n <=? 122)%nat)
  || Ascii.eqb c "_" || Ascii.eqb c "." || Ascii.eqb c "-" || Ascii.eqb c "~".

(** [urllib.parse.quote_plus(s)] on the UTF-8 bytes of [s]. *)
Fixpoint quote_plus (s : string) : string :=
  match s with
  | String c s' =>
      (if unreserved c then String c ""
       else if Ascii.eqb c " " then "+"
       else let n := nat_of_ascii c in
            String "%" (String (hex_digit (n / 16)) (String (hex_digit (n mod 16)) "")))
      +:+ quote_plus s'
  | EmptyString => EmptyString
  end.

(** [urllib.parse.urlencode(params)] for a dict of [str] to [str], in
    insertion order. *)
Fixpoint urlencode (params : list (string * string)) : string :=
  match params with
  | [] => ""
  | [(k, v)] => quote_plus k +:+ "=" +:+ quote_plus v
  | (k, v) :: rest => quote_plus k +:+ "=" +:+ quote_plus v +:+ "&" +:+ urlencode rest
  end.

End PyStr.

(* ===================================================================== *)
(** ** The BeautifulSoup interface used by the scraper                    *)
(* ===================================================================== *)

Module Soup.

(** A parse tree: text nodes and tags with attributes and children. *)
Inductive node : Type :=
| NavigableString (s : string)
| Tag (name : string) (attrs : list (string * string)) (contents : list node).

(** A tag together with its ancestors (nearest first), which CSS
    descendant combinators inspect. *)
Record element : Type := mkElement {
  name : string;
  attrs : list (string * string);
  contents : list node;
  parents : list (string * list (string * string))
}.

(** The [BeautifulSoup] object: the nodes at the top of the document. *)
Definition soup := list node.

Fixpoint tags_under (ps : list (string * list (string * string))) (n : node)
  : list element :=
  match n with
  | NavigableString _ => []
  | Tag nm ats cs =>
      mkElement nm ats cs ps :: flat_map (tags_under ((nm, ats) :: ps)) cs
  end.

(** All tags below [e], in document order ([e.descendants], tags only). *)
Definition descendants (e : element) : list element :=
  flat_map (tags_under ((name e, attrs e) :: parents e)) (contents e).

Definition soup_tags (doc : soup) : list element :=
  flat_map (tags_under []) doc.

(** [tag.get(key)] *)
Fixpoint lookup_attr (key : string) (ats : list (string * string)) : option string :=
  match ats with
  | [] => None
  | (k, v) :: rest => if String.eqb k key then Some v else lookup_attr key rest
  end.

Definition get (e : element) (key : string) : option string :=
  lookup_attr key (attrs e).

(** *** CSS selectors (soupsieve), for the shapes config.py uses:
    compound selectors [tag.class1.class2[attr='v']] chained by the
    descendant combinator. *)
Record compound : Type := mkCompound {
  sel_tag : option string;
  sel_classes : list string;
  sel_attrs : list (string * string)
}.

(** Outermost compound first, as written: ["h3 a"] is [[h3; a]]. *)
Definition selector := list compound.

Definition has_class (ats : list (string * string)) (c : string) : bool :=
  match lookup_attr "class" ats with
  | Some v => existsb (String.eqb c) (String.words v)
  | None => false
  end.

(** Attributes bs4 keeps as a list of white-space separated tokens. *)
Definition multi_valued (nm key : string) : bool :=
  existsb (String.eqb key) ["class"; "accesskey"; "dropzone"]
  || (existsb (String.eqb nm) ["a"; "link"] && existsb (String.eqb key) ["rel"; "rev"])
  || (String.eqb nm "area" && String.eqb key "rel").

Fixpoint join_with (sep : string) (l : list string) : string :=
  match l with
  | [] => ""
  | [x] => x
  | x :: rest => x +:+ sep +:+ join_with sep rest
  end.

(** The value of an attribute as one string: the tokens of a multi-valued
    attribute joined by single spaces, any other value unchanged. *)
Definition attr_text (nm : string) (kv : string * string) : string :=
  if multi_valued nm (fst kv) then join_with " " (String.words (snd kv))
  else snd kv.

(** [[key='value']] *)
Definition has_attr_value (nm : string) (ats : list (string * string))
    (kv : string * string) : bool :=
  match lookup_attr (fst kv) ats with
  | Some v => String.eqb (attr_text nm (fst kv, v)) (snd kv)
  | None => false
  end.

Definition compound_matches (c : compound) (nm : string)
    (ats : list (string * string)) : bool :=
  match sel_tag c with Some t => String.eqb t nm | None => true end
  && forallb (has_class ats) (sel_classes c)
  && forallb (has_attr_value nm ats) (sel_attrs c).

(** [ancestors_match cs ps]: the compounds [cs] (innermost first) are
    matched, in order, by some chain of the ancestors [ps]. *)
Fixpoint ancestors_match (cs : list compound)
    (ps : list (string * list (string * string))) : bool :=
  match cs with
  | [] => true
  | c :: cs' =>
      (fix scan (ps : list (string * list (string * string))) : bool :=
         match ps with
         | [] => false
         | (nm, ats) :: ps' =>
             (compound_matches c nm ats && ancestors_match cs' ps') || scan ps'
         end) ps
  end.

Definition matches (sel : selector) (e : element) : bool :=
  match rev sel with
  | [] => false
  | c :: outer =>
      compound_matches c (name e) (attrs e) && ancestors_match outer (parents e)
  end.

(** [tag.select(sel)], [tag.select_one(sel)] *)
Definition select (e : element) (sel : selector) : list element :=
  List.filter (matches sel) (descendants e).

Definition select_one (e : element) (sel : selector) : option element :=
  head (select e sel).

(** [soup.select(sel)], [soup.select_one(sel)] *)
Definition soup_select (doc : soup) (sel : selector) : list element :=
  List.filter (matches sel) (soup_tags doc).

Definition soup_select_one (doc : soup) (sel : selector) : option element :=
  head (soup_select doc sel).

(** [tag.find_all(name)] *)
Definition find_all (e : element) (nm : string) : list element :=
  List.filter (fun d => String.eqb (name d) nm) (descendants e).

(** *** Text extraction: [tag.get_text(strip=True)] *)
Fixpoint strings (n : node) : list string :=
  match n with
  | NavigableString s => [s]
  | Tag _ _ cs => flat_map strings cs
  end.

Definition stripped_strings (e : element) : list string :=
  List.filter PyStr.truthy (map PyStr.strip (flat_map strings (contents e))).

Definition get_text_strip (e : element) : string :=
  PyStr.join (stripped_strings e).

(** *** Serialisation: [str(tag)] with the default (minimal) formatter *)
Definition substitute_xml (s : string) : string :=
  PyStr.replace_char ">" "&gt;"
    (PyStr.replace_char "<" "&lt;" (PyStr.replace_char "&" "&amp;" s)).

Definition dquote : ascii := ascii_of_nat 34.

Definition quoted_attribute_value (v : string) : string :=
  let dq := String dquote EmptyString in
  if PyStr.contains dq v then
    if PyStr.contains "'" v
    then dq +:+ PyStr.replace_char dquote "&quot;" v +:+ dq
    else "'" +:+ v +:+ "'"
  else dq +:+ v +:+ dq.

Definition render_attrs (nm : string) (ats : list (string * string)) : string :=
  PyStr.join
    (map (fun kv => " " +:+ fst kv +:+ "=" +:+
                    quoted_attribute_value (substitute_xml (attr_text nm kv))) ats).

(** Tags the HTML tree builder renders as [<br/>] when childless. *)
Definition empty_element_tags : list string :=
  ["area"; "base"; "br"; "col"; "embed"; "hr"; "img"; "input"; "keygen";
   "link"; "menuitem"; "meta"; "param"; "source"; "track"; "wbr";
   "basefont"; "bgsound"; "command"; "frame"; "image"; "isindex";
   "nextid"; "spacer"].

Fixpoint decode_node (n : node) : string :=
  match n with
  | NavigableString s => substitute_xml s
  | Tag nm ats cs =>
      match cs with
      | [] =>
          if existsb (String.eqb nm) empty_element_tags
          then "<" +:+ nm +:+ render_attrs nm ats +:+ "/>"
          else "<" +:+ nm +:+ render_attrs nm ats +:+ "></" +:+ nm +:+ ">"
      | _ =>
          "<" +:+ nm +:+ render_attrs nm ats +:+ ">" +:+
          PyStr.join (map decode_node cs) +:+ "</" +:+ nm +:+ ">"
      end
  end.

(** [str(tag)] *)
Definition str (e : element) : string :=
  decode_node (Tag (name e) (attrs e) (contents e)).

End Soup.

(* ===================================================================== *)
(** ** models.py                                                          *)
(* ===================================================================== *)

(** Timestamps ([datetime]) are seconds on an abstract wall clock. *)
Definition datetime := Z.

Module Book.
Record t : Type := mk {
  title : string;
  author : option string;
  price : option string;
  image_url : option string;
  product_url : option string;
  availability : option string;
  category : option string;
  scraped_at : datetime
}.
End Book.

Module ScrapingResult.
Record t : Type := mk {
  site_name : string;
  category : string;
  total_books : Z;
  pages_scraped : Z;
  books : list Book.t;
  scraping_started : datetime;
  scraping_completed : datetime;
  success : bool;
  errors : list string
}.
End ScrapingResult.

(* ===================================================================== *)
(** ** config.py                                                          *)
(* ===================================================================== *)

Module ScraperConfig.
Record t : Type := mk {
  base_url : string;
  category_param : string;
  max_pages : Z;
  delay_between_requests : Q;
  max_retries : Z;
  timeout : Z;
  output_format : string;
  output_directory : string;
  concurrent_requests : Z
}.
End ScraperConfig.

Module SiteConfig.
Record t : Type := mk {
  name : string;
  base_url : string;
  selectors : gmap string Soup.selector;
  pagination_selector : Soup.selector;
  category_params : gmap string string
}.
End SiteConfig.

Definition tag_sel (t : string) : Soup.compound := Soup.mkCompound (Some t) [] [].
Definition class_sel (c : string) : Soup.compound := Soup.mkCompound None [c] [].
Definition tag_class_sel (t c : string) : Soup.compound := Soup.mkCompound (Some t) [c] [].

(** [PERIPLUS_CONFIG], with each CSS selector string in parsed form. *)
Definition PERIPLUS_CONFIG : SiteConfig.t :=
  SiteConfig.mk
    "periplus"
    "https://www.periplus.com/index.php"
    (list_to_map
       [("product_container", [tag_class_sel "div" "single-product"]);
        ("title", [tag_sel "h3"; tag_sel "a"]);
        ("author", [class_sel "product-author"; tag_sel "a"]);
        ("price", [class_sel "product-price"]);
        ("image", [class_sel "product-img"; tag_class_sel "img" "default-img"]);
        ("link", [tag_sel "h3"; tag_sel "a"]);
        ("availability", [class_sel "product-binding"])])
    [tag_class_sel "ul" "pagination"; tag_sel "li";
     Soup.mkCompound (Some "a") [] [("rel", "next")]]
    (list_to_map
       [("new_releases", "103"); ("bestsellers", "104"); ("featured", "105")]).

(** [DEFAULT_CONFIG] with no environment variable set. *)
Definition DEFAULT_CONFIG : ScraperConfig.t :=
  ScraperConfig.mk (SiteConfig.base_url PERIPLUS_CONFIG) "103" 5 1%Q 3 30
                   "json" "output" 5.

(* ===================================================================== *)
(** ** scraper.py: class DataScraper                                      *)
(* ===================================================================== *)

Module Scraper.

(** *** Exceptions and the world outside the program *)

Inductive exn : Type :=
| KeyError (key : string)
| Exception (msg : string).

(** [str(e)] *)
Definition str_exn (e : exn) : string :=
  match e with
  | KeyError key => "'" +:+ key +:+ "'"
  | Exception msg => msg
  end.

Inductive outcome (A : Type) : Type :=
| Ret (a : A)
| Raise (e : exn).
Arguments Ret {A} a.
Arguments Raise {A} e.

(** What [session.get] yields: a response, whose [text()] may itself
    fail, or a transport-level exception. *)
Record response : Type := mkResponse {
  status : Z;
  text : outcome string
}.

(** Effects a run leaves behind, in the order they happen. [Backoff] is
    [asyncio.sleep(2 ** attempt)] in [_fetch_page], [Delay] is
    [asyncio.sleep(delay_between_requests)] in [scrape_category]. *)
Inductive event : Type :=
| Get (url : string)
| Backoff (seconds : Z)
| Delay (seconds : Q)
| WriteJson (directory filename : string) (result : ScrapingResult.t)
| WriteCsv (directory filename : string) (books : list Book.t).

(** The collaborators the scraper does not own: the HTML parser (which
    may raise), URL resolution, the web server (answering the n-th request
    of the run), the wall clock (answering the n-th reading) and its
    formatting. *)
Record World : Type := mkWorld {
  BeautifulSoup : string -> outcome Soup.soup;
  urljoin : string -> string -> string;
  server : nat -> string -> outcome response;
  wall_clock : nat -> datetime;
  strftime : datetime -> string
}.

(** The immutable fields of [self]. *)
Record DataScraper : Type := mkDataScraper {
  site_config : SiteConfig.t;
  scraper_config : ScraperConfig.t
}.

(** The mutable fields of [self] ([errors], and whether [session] has been
    opened) together with the run's effects and the world's counters. *)
Record state : Type := mkState {
  errors : list string;
  session : bool;
  trace : list event;
  requests : nat;
  clock_reads : nat
}.

(** [DataScraper.__init__]: no error, no session. *)
Definition init_state : state := mkState [] false [] 0%nat 0%nat.

(** *** The monad: state passing with exceptions *)

Definition M (A : Type) : Type := state -> outcome A * state.

Definition ret {A} (a : A) : M A := fun s => (Ret a, s).

Definition bind {A B} (m : M A) (k : A -> M B) : M B :=
  fun s => match m s with
           | (Ret a, s') => k a s'
           | (Raise e, s') => (Raise e, s')
           end.

Definition raise {A} (e : exn) : M A := fun s => (Raise e, s).

(** [try: m except Exception as e: handler e] *)
Definition try_except {A} (m : M A) (handler : exn -> M A) : M A :=
  fun s => match m s with
           | (Ret a, s') => (Ret a, s')
           | (Raise e, s') => handler e s'
           end.

Notation "'let*' x ':=' c 'in' k" := (bind c (fun x => k))
  (at level 10, x pattern, c at level 100, k at level 200).

(** State updates: an effect is recorded, an error is appended. *)
Definition record (evs : list event) (s : state) : state :=
  mkState (errors s) (session s) (trace s ++ evs) (requests s) (clock_reads s).

Definition with_error (msg : string) (s : state) : state :=
  mkState (errors s ++ [msg]) (session s) (trace s) (requests s) (clock_reads s).

Definition emit (ev : event) : M unit := fun s => (Ret tt, record [ev] s).

(** [self.errors.append(msg)] *)
Definition errors_append (msg : string) : M unit :=
  fun s => (Ret tt, with_error msg s).

Definition get_errors : M (list string) := fun s => (Ret (errors s), s).

(** [datetime.now()] *)
Definition now (w : World) : M datetime :=
  fun s => (Ret (wall_clock w (clock_reads s)),
            mkState (errors s) (session s) (trace s) (requests s)
                    (S (clock_reads s))).

(** The state once one more request, for [url], has gone out. *)
Definition requested (url : string) (s : state) : state :=
  mkState (errors s) (session s) (trace s ++ [Get url]) (S (requests s))
          (clock_reads s).

(** [self.session.get(url, headers=self._get_headers())]: fails with an
    [AttributeError] while [self.session] is [None], otherwise issues the
    request. The headers, with their random User-Agent, are not part of
    what the model's server looks at. *)
Definition session_get (w : World) (url : string) : M response :=
  fun s =>
    if session s then
      let s' := requested url s in
      match server w (requests s) url with
      | Ret r => (Ret r, s')
      | Raise e => (Raise e, s')
      end
    else (Raise (Exception "'NoneType' object has no attribute 'get'"), s).

(** A call that returns or raises without touching the state. *)
Definition lift {A} (o : outcome A) : M A := fun s => (o, s).

(** [await response.text()] *)
Definition response_text (r : response) : M string := lift (text r).

(** [range(n)] *)
Definition range (n : Z) : list Z := map Z.of_nat (seq 0 (Z.to_nat n)).

(** [a or b] on [Optional[str]] *)
Definition or_str (a b : option string) : option string :=
  match a with
  | Some x => if PyStr.truthy x then a else b
  | None => b
  end.

(** [bool(x)] for [x : Optional[str]] *)
Definition truthy_opt (x : option string) : bool :=
  match x with Some v => PyStr.truthy v | None => false end.

(** A [Dict[str, V]] in insertion order. *)
Definition dict (V : Type) : Type := list (string * V).

(** [d[k] = v]: overwrite in place, or append a new key. *)
Fixpoint dict_set {V} (k : string) (v : V) (d : dict V) : dict V :=
  match d with
  | [] => [(k, v)]
  | (k', v') :: d' =>
      if String.eqb k k' then (k, v) :: d' else (k', v') :: dict_set k v d'
  end.

Fixpoint dict_get {V} (k : string) (d : dict V) : option V :=
  match d with
  | [] => None
  | (k', v') :: d' => if String.eqb k k' then Some v' else dict_get k d'
  end.

(** [delay > 0]; the [float] delay is taken as a rational. *)
Definition Q_gt0 (d : Q) : bool := 0 <? Qnum d.

Section Methods.

Context (w : World) (self : DataScraper).

(** **** [_fetch_page] (lines 63-90) *)

(** One iteration of [for attempt in range(retries + 1)]; [Some content]
    stands for [return content], [None] for falling through to the next
    iteration. *)
Definition fetch_attempt (url : string) (retries attempt : Z) : M (option string) :=
  try_except
    (let* response := session_get w url in
     if status response =? 200 then
       let* content := response_text response in
       ret (Some content)
     else if status response =? 429 then
       let wait_time := 2 ^ attempt in
       let* _ := emit (Backoff wait_time) in
       ret None
     else
       ret None)
    (fun e =>
       let error_msg :=
         "Attempt " +:+ pretty (attempt + 1) +:+ " failed for " +:+ url +:+
         ": " +:+ str_exn e in
       if attempt =? retries then
         let* _ := errors_append error_msg in ret None
       else
         let* _ := emit (Backoff (2 ^ attempt)) in ret None).

Fixpoint fetch_attempts (url : string) (retries : Z) (attempts : list Z)
  : M (option string) :=
  match attempts with
  | [] => ret None
  | attempt :: rest =>
      let* r := fetch_attempt url retries attempt in
      match r with
      | Some content => ret (Some content)
      | None => fetch_attempts url retries rest
      end
  end.

Definition _fetch_page (url : string) (retries : option Z) : M (option string) :=
  let retries := default (ScraperConfig.max_retries (scraper_config self)) retries in
  fetch_attempts url retries (range (retries + 1)).

(** **** [_parse_book] (lines 92-165) *)

(** [self.site_config.selectors[key]] *)
Definition selector_for (key : string) : M Soup.selector :=
  match SiteConfig.selectors (site_config self) !! key with
  | Some sel => ret sel
  | None => raise (KeyError key)
  end.

(** The [for link in author_links] loop: the first non-empty link text. *)
Fixpoint first_author (author_links : list Soup.element) : option string :=
  match author_links with
  | [] => None
  | link :: rest =>
      let text := Soup.get_text_strip link in
      if PyStr.truthy text && negb (String.eqb text "")
      then Some text
      else first_author rest
  end.

(** The test of line 124:
    [text and 'Rp' in text and 'text-decoration:line-through' not in str(div)]. *)
Definition is_current_price (div : Soup.element) : bool :=
  let text := Soup.get_text_strip div in
  PyStr.truthy text && PyStr.contains "Rp" text
  && negb (PyStr.contains "text-decoration:line-through" (Soup.str div)).

(** The [for div in price_divs] loop: the text of the first [div] that
    passes the test, if any. *)
Fixpoint current_price (price_divs : list Soup.element) : option string :=
  match price_divs with
  | [] => None
  | div :: rest =>
      if is_current_price div
      then Some (Soup.get_text_strip div)
      else current_price rest
  end.

(** [if url and not url.startswith('http'): url = urljoin(base_url, url)] *)
Definition absolute_url (url : option string) : option string :=
  match url with
  | Some u =>
      if PyStr.truthy u && negb (PyStr.startswith u "http")
      then Some (urljoin w (SiteConfig.base_url (site_config self)) u)
      else Some u
  | None => None
  end.

(** The body of the [try] block; [None] is the fall-through to the final
    [return None]. *)
Definition parse_book_body (book_element : Soup.element) (category : string)
  : M (option Book.t) :=
  let* title_sel := selector_for "title" in
  let title_elem := Soup.select_one book_element title_sel in
  let title := option_map Soup.get_text_strip title_elem in
  let* author_sel := selector_for "author" in
  let author_elem := Soup.select_one book_element author_sel in
  let author :=
    match author_elem with
    | Some a => Some (Soup.get_text_strip a)
    | None =>
        match Soup.select_one book_element [class_sel "product-author"] with
        | Some author_section => first_author (Soup.find_all author_section "a")
        | None => None
        end
    end in
  let* price_sel := selector_for "price" in
  let price_elem := Soup.select_one book_element price_sel in
  let price :=
    match price_elem with
    | Some p =>
        match current_price (Soup.find_all p "div") with
        | Some text => Some text
        | None => Some (Soup.get_text_strip p)
        end
    | None => None
    end in
  let* image_sel := selector_for "image" in
  let image_elem := Soup.select_one book_element image_sel in
  let image_url :=
    match image_elem with
    | Some i => absolute_url (or_str (Soup.get i "src") (Soup.get i "data-src"))
    | None => None
    end in
  let* link_sel := selector_for "link" in
  let link_elem := Soup.select_one book_element link_sel in
  let product_url :=
    match link_elem with
    | Some l => absolute_url (Soup.get l "href")
    | None => None
    end in
  let* availability_sel := selector_for "availability" in
  let availability_elem := Soup.select_one book_element availability_sel in
  let availability := option_map Soup.get_text_strip availability_elem in
  match title with
  | Some t =>
      if PyStr.truthy t then
        let* scraped_at := now w in
        ret (Some (Book.mk t author price image_url product_url availability
                           (Some category) scraped_at))
      else ret None
  | None => ret None
  end.

Definition _parse_book (book_element : Soup.element) (category : string)
  : M (option Book.t) :=
  try_except
    (parse_book_body book_element category)
    (fun e =>
       let* _ := errors_append ("Error parsing book: " +:+ str_exn e) in
       ret None).

(** **** [_parse_page] (lines 167-193) *)

(** The filter on [book_elements]: the first link of the element has a
    non-empty [href] containing [/p/]. *)
Definition is_actual_book (element : Soup.element) : bool :=
  match Soup.select_one element [tag_sel "a"] with
  | Some link =>
      match Soup.get link "href" with
      | Some href => PyStr.truthy href && PyStr.contains "/p/" href
      | None => false
      end
  | None => false
  end.

(** [for book_element in actual_books: ...] *)
Fixpoint parse_books (actual_books : list Soup.element) (category : string)
    (books : list Book.t) : M (list Book.t) :=
  match actual_books with
  | [] => ret books
  | book_element :: rest =>
      let* book := _parse_book book_element category in
      match book with
      | Some b => parse_books rest category (books ++ [b])
      | None => parse_books rest category books
      end
  end.

Definition _parse_page (html_content category : string) : M (list Book.t) :=
  let* soup := lift (BeautifulSoup w html_content) in
  let* container_sel := selector_for "product_container" in
  let book_elements := Soup.soup_select soup container_sel in
  let actual_books := List.filter is_actual_book book_elements in
  parse_books actual_books category [].

(** **** [_get_next_page_url] (lines 195-207) *)

Definition _get_next_page_url (html_content current_url : string)
  : M (option string) :=
  let* soup := lift (BeautifulSoup w html_content) in
  match Soup.soup_select_one soup (SiteConfig.pagination_selector (site_config self)) with
  | Some next_link =>
      match Soup.get next_link "href" with
      | Some next_url =>
          if PyStr.truthy next_url then
            if negb (PyStr.startswith next_url "http")
            then ret (Some (urljoin w (SiteConfig.base_url (site_config self)) next_url))
            else ret (Some next_url)
          else ret None
      | None => ret None
      end
  | None => ret None
  end.

(** **** [_build_category_url] (lines 209-221) *)

Definition _build_category_url (category_param : string) (page : Z) : string :=
  let base_url := SiteConfig.base_url (site_config self) in
  let params := [("route", "product/category"); ("anl", category_param)] in
  let params := if 1 <? page then (params ++ [("page", pretty page)])%list else params in
  base_url +:+ "?" +:+ PyStr.urlencode params.

(** **** [scrape_category] (lines 223-263) *)

(** The [while current_page <= max_pages] loop. Every iteration that does
    not [break] increments [current_page], so [max_pages - current_page + 1]
    iterations always suffice; [fuel] carries that bound. *)
Fixpoint scrape_pages (fuel : nat) (category_name category_param : string)
    (max_pages current_page : Z) (books : list Book.t) : M (list Book.t) :=
  if current_page <=? max_pages then
    match fuel with
    | O => ret books
    | S fuel' =>
        let url := _build_category_url category_param current_page in
        let* html_content := _fetch_page url None in
        if negb (truthy_opt html_content) then ret books
        else
          let html := default "" html_content in
          let* page_books := _parse_page html category_name in
          match page_books with
          | [] => ret books
          | _ :: _ =>
              let books := (books ++ page_books)%list in
              let* next_url := _get_next_page_url html url in
              if negb (truthy_opt next_url) then ret books
              else
                let current_page := current_page + 1 in
                let delay :=
                  ScraperConfig.delay_between_requests (scraper_config self) in
                let* _ := (if Q_gt0 delay then emit (Delay delay) else ret tt) in
                scrape_pages fuel' category_name category_param max_pages
                             current_page books
          end
    end
  else ret books.

Definition scrape_category (category_name category_param : string)
    (max_pages : option Z) : M (list Book.t) :=
  let max_pages := default (ScraperConfig.max_pages (scraper_config self)) max_pages in
  scrape_pages (Z.to_nat max_pages) category_name category_param max_pages 1 [].

(** **** [scrape_multiple_categories] (lines 265-282) *)

(** The second loop: each coroutine starts running only when awaited. *)
Fixpoint await_tasks (tasks : list (string * M (list Book.t)))
    (results : dict (list Book.t)) : M (dict (list Book.t)) :=
  match tasks with
  | [] => ret results
  | (category_name, task) :: rest =>
      let* results :=
        try_except
          (let* books := task in
           ret (dict_set category_name books results))
          (fun e =>
             let* _ := errors_append ("Error scraping category " +:+
                                      category_name +:+ ": " +:+ str_exn e) in
             ret (dict_set category_name [] results)) in
      await_tasks rest results
  end.

Definition scrape_multiple_categories (categories : dict string)
    (max_pages : option Z) : M (dict (list Book.t)) :=
  let tasks :=
    map (fun '(category_name, category_param) =>
           (category_name, scrape_category category_name category_param max_pages))
        categories in
  await_tasks tasks [].

(** **** [save_results] and its helpers (lines 284-321) *)

Definition _save_to_json (data : ScrapingResult.t) (filename : string) : M unit :=
  emit (WriteJson (ScraperConfig.output_directory (scraper_config self)) filename data).

Definition _save_to_csv (books : list Book.t) (filename : string) : M unit :=
  match books with
  | [] => ret tt
  | _ :: _ =>
      emit (WriteCsv (ScraperConfig.output_directory (scraper_config self)) filename books)
  end.

Definition save_results (result : ScrapingResult.t) : M unit :=
  let* t := now w in
  let timestamp := strftime w t in
  let base_filename :=
    ScrapingResult.site_name result +:+ "_" +:+ ScrapingResult.category result +:+
    "_" +:+ timestamp in
  let output_format := ScraperConfig.output_format (scraper_config self) in
  let* _ :=
    (if String.eqb output_format "json" || String.eqb output_format "both"
     then _save_to_json result (base_filename +:+ ".json")
     else ret tt) in
  if String.eqb output_format "csv" || String.eqb output_format "both"
  then _save_to_csv (ScrapingResult.books result) (base_filename +:+ ".csv")
  else ret tt.

(** **** [run_scraper] (lines 323-355) *)

(** [max_pages or self.scraper_config.max_pages] *)
Definition requested_max_pages (max_pages : option Z) : Z :=
  match max_pages with
  | Some m => if m =? 0 then ScraperConfig.max_pages (scraper_config self) else m
  | None => ScraperConfig.max_pages (scraper_config self)
  end.

(** [(len(books) // 20) + 1 if books else 1] *)
Definition estimate_pages (books : list Book.t) : Z :=
  match books with
  | [] => 1
  | _ :: _ => Z.of_nat (length books) / 20 + 1
  end.

Definition run_scraper (category_name : string) (max_pages : option Z)
  : M ScrapingResult.t :=
  let* start_time := now w in
  let category_param :=
    default category_name
            (SiteConfig.category_params (site_config self) !! category_name) in
  let* books := scrape_category category_name category_param max_pages in
  let* end_time := now w in
  let* errs := get_errors in
  let result :=
    ScrapingResult.mk
      (SiteConfig.name (site_config self))
      category_name
      (Z.of_nat (length books))
      (Z.min (requested_max_pages max_pages) (estimate_pages books))
      books
      start_time
      end_time
      (0 <? Z.of_nat (length books))
      errs in
  let* _ := save_results result in
  ret result.

End Methods.

(* ===================================================================== *)
(** ** Sample documents, servers and worlds                               *)
(* ===================================================================== *)

Module Samples.

Import Soup.

(** A listing entry as the Periplus markup has it. *)
Definition product (href book_title : string) (price_block : list node) : node :=
  Tag "div" [("class", "single-product")]
    [Tag "h3" [] [Tag "a" [("href", href)] [NavigableString book_title]];
     Tag "div" [("class", "product-price")] price_block].

Definition plain_price (p : string) : list node := [Tag "div" [] [NavigableString p]].

Definition pagination_next (href : string) : node :=
  Tag "ul" [("class", "pagination")]
    [Tag "li" [] [Tag "a" [("rel", "next"); ("href", href)] [NavigableString "Next"]]].

Definition document (body : list node) : soup := [Tag "html" [] [Tag "body" [] body]].

(** The markup of a document. *)
Definition html_of (doc : soup) : string := PyStr.join (map decode_node doc).

Definition book_n (n : nat) : node :=
  product ("/p/" +:+ pretty n) ("Book " +:+ pretty n) (plain_price "Rp 90,000").

Definition url_page1 : string :=
  "https://www.periplus.com/index.php?route=product%2Fcategory&anl=103".
Definition url_page2 : string := url_page1 +:+ "&page=2".
Definition url_page3 : string := url_page1 +:+ "&page=3".

(** Page 1: one book and a link to page 2. *)
Definition doc_page1 : soup := document [book_n 1; pagination_next url_page2].
(** Page 2: one book, no further page. *)
Definition doc_page2 : soup := document [book_n 2].
(** A full page: twenty books, no further page. *)
Definition doc_twenty : soup := document (map book_n (seq 1 20)).
(** A document the parser chokes on. *)
Definition html_broken : string := "<<broken>>".

Definition known_docs : list soup := [doc_page1; doc_page2; doc_twenty].

(** A parser for the sample documents: each is recognised by its markup;
    anything else parses to an empty document. *)
Definition sample_parser (html : string) : outcome soup :=
  if String.eqb html html_broken then Raise (Exception "parser error")
  else match List.find (fun d => String.eqb (html_of d) html) known_docs with
       | Some d => Ret d
       | None => Ret []
       end.

Definition sample_urljoin (base url : string) : string :=
  "https://www.periplus.com" +:+ url.

Definition world_with (srv : nat -> string -> outcome response) : World :=
  mkWorld sample_parser sample_urljoin srv (fun n => 1700000000 + Z.of_nat n) pretty.

Definition ok (doc : soup) : outcome response := Ret (mkResponse 200 (Ret (html_of doc))).

(** Every request is refused at the transport level. *)
Definition server_down : nat -> string -> outcome response :=
  fun n _ => Raise (Exception ("Connection refused #" +:+ pretty n)).
(** Every request is answered with HTTP 500. *)
Definition server_500 : nat -> string -> outcome response :=
  fun _ _ => Ret (mkResponse 500 (Ret "Internal Server Error")).
(** Every request is answered with HTTP 429. *)
Definition server_429 : nat -> string -> outcome response :=
  fun _ _ => Ret (mkResponse 429 (Ret "Too Many Requests")).
(** Two pages of one book each. *)
Definition server_two_pages : nat -> string -> outcome response :=
  fun _ url =>
    if String.eqb url url_page1 then ok doc_page1
    else if String.eqb url url_page2 then ok doc_page2
    else Ret (mkResponse 404 (Ret "")).
(** Category 103 returns markup the parser rejects; 104 has one page. *)
Definition url_104 : string :=
  "https://www.periplus.com/index.php?route=product%2Fcategory&anl=104".
Definition server_broken_103 : nat -> string -> outcome response :=
  fun _ url =>
    if String.eqb url url_page1 then Ret (mkResponse 200 (Ret html_broken))
    else if String.eqb url url_104 then ok doc_page2
    else Ret (mkResponse 404 (Ret "")).

(** The first request is refused, the second answered with HTTP 503, the
    following ones with page 2. *)
Definition server_flaky : nat -> string -> outcome response :=
  fun n _ =>
    match n with
    | O => Raise (Exception "Connection reset")
    | S O => Ret (mkResponse 503 (Ret "Service Unavailable"))
    | _ => ok doc_page2
    end.

Definition periplus : DataScraper := mkDataScraper PERIPLUS_CONFIG DEFAULT_CONFIG.

(** A listing entry as [soup.select] hands it over: below [html], [body]. *)
Definition entry (n : node) : element :=
  match n with
  | Tag nm ats cs => mkElement nm ats cs [("body", []); ("html", [])]
  | NavigableString _ => mkElement "" [] [] []
  end.

Definition struck_price (p : string) : node :=
  Tag "div" [("style", "text-decoration:line-through")] [NavigableString p].

(** A discounted book: the old price struck through, the current price in
    a plain [div]. *)
Definition discounted_entry : element :=
  entry (product "/p/7" "Book 7"
           [struck_price "Rp 120,000"; Tag "div" [] [NavigableString "Rp 90,000"]]).

(** The same book with the current price in a plain [span]. *)
Definition discounted_span_entry : element :=
  entry (product "/p/7" "Book 7"
           [struck_price "Rp 120,000"; Tag "span" [] [NavigableString "Rp 90,000"]]).

(** An entry whose title link holds only white space. *)
Definition untitled_entry : element :=
  entry (product "/p/9" "   " (plain_price "Rp 90,000")).


(** The record the extractor builds from [book_n n]. *)
Definition sample_book (n : nat) (category : string) (t : datetime) : Book.t :=
  Book.mk ("Book " +:+ pretty n) None (Some "Rp 90,000") None
          (Some ("https://www.periplus.com/p/" +:+ pretty n)) None
          (Some category) t.

(** The state inside [async with DataScraper(...) as scraper]. *)
Definition opened : state := mkState [] true [] 0%nat 0%nat.

End Samples.

(* ===================================================================== *)
(** ** Properties of the page fetcher                                     *)
(* ===================================================================== *)

(** What a run of [_fetch_page] over [attempts] leaves in the trace when
    every request is answered with HTTP 429. *)
Definition rate_limited_trace (url : string) (attempts : list Z) : list event :=
  flat_map (fun attempt => [Get url; Backoff (2 ^ attempt)]) attempts.

(** The answer to a request hands content to the caller: status 200 and a
    body that can be read. *)
Definition delivers (o : outcome response) : bool :=
  match o with
  | Ret r => (status r =? 200) && match text r with Ret _ => true | Raise _ => false end
  | Raise _ => false
  end.

(** The state once the inter-page delay, if one is configured, has been
    slept. *)
Definition after_delay (self : DataScraper) (s : state) : state :=
  let delay := ScraperConfig.delay_between_requests (scraper_config self) in
  if Q_gt0 delay then record [Delay delay] s else s.


(** What awaiting one category's task amounts to: its books, or no book
    and one more error when the walk raised. *)
Definition settle (category_name : string) (task : M (list Book.t)) (s : state)
  : list Book.t * state :=
  match task s with
  | (Ret books, s1) => (books, s1)
  | (Raise e, s1) =>
      ([], with_error ("Error scraping category " +:+ category_name +:+ ": " +:+
                       str_exn e) s1)
  end.

(** Awaiting the tasks one after the other, each from the state the
    previous one left. *)
Fixpoint settled (tasks : list (string * M (list Book.t))) (s : state)
  : dict (list Book.t) * state :=
  match tasks with
  | [] => ([], s)
  | (category_name, task) :: rest =>
      let '(books, s1) := settle category_name task s in
      let '(d, s') := settled rest s1 in
      ((category_name, books) :: d, s')
  end.

(** [f"Attempt {attempt + 1} failed for {url}: {str(e)}"] *)
Definition attempt_failed_msg (attempt : Z) (url : string) (e : exn) : string :=
  "Attempt " +:+ pretty (attempt + 1) +:+ " failed for " +:+ url +:+ ": " +:+ str_exn e.

(** [s'] continues [s]: the errors and effects recorded in [s] are still
    there, in place, the session is the same and the world's counters
    have only advanced. *)
Definition continues (s s' : state) : Prop :=
  errors s `prefix_of` errors s'
  /\ trace s `prefix_of` trace s'
  /\ session s' = session s
  /\ (requests s <= requests s')%nat
  /\ (clock_reads s <= clock_reads s')%nat.

(** The sleeps of a run of [_fetch_page] over [attempts] in which every
    attempt but the last fails by raising. *)
Definition backoff_trace (attempts : list Z) : list event :=
  map (fun attempt => Backoff (2 ^ attempt)) attempts.

(** The value of an upper-case hexadecimal digit. *)
Definition hex_value (c : ascii) : option nat :=
  let n := nat_of_ascii c in
  if (48 <=? n)%nat && (n <=? 57)%nat then Some (n - 48)%nat
  else if (65 <=? n)%nat && (n <=? 70)%nat then Some (n - 55)%nat
  else None.

(** Reads back the first character [quote_plus] wrote, and what follows. *)
Definition unquote_head (s : string) : option (ascii * string) :=
  match s with
  | String "%" (String h (String l rest)) =>
      match hex_value h, hex_value l with
      | Some a, Some b => Some (ascii_of_nat (16 * a + b), rest)
      | _, _ => None
      end
  | String "+" rest => Some (" "%char, rest)
  | String c rest => Some (c, rest)
  | EmptyString => None
  end.

(** The keys [_parse_book] looks up in [selectors], in the order it does. *)
Definition field_keys : list string :=
  ["title"; "author"; "price"; "image"; "link"; "availability"].

(** The first of them the selector table of [self] lacks, if any. *)
Definition first_missing (self : DataScraper) : option string :=
  List.find
    (fun key =>
       match SiteConfig.selectors (site_config self) !! key with
       | Some _ => false
       | None => true
       end)
    field_keys.

(** The title an element offers: the stripped text of its title element,
    when there is one and the text is not empty. *)
Definition title_of (title_sel : Soup.selector) (element : Soup.element)
  : option string :=
  match option_map Soup.get_text_strip (Soup.select_one element title_sel) with
  | Some t => if PyStr.truthy t then Some t else None
  | None => None
  end.

(** [b] was stamped by one of the clock readings [lo], ..., [hi - 1]. *)
Definition stamped (w : World) (lo hi : nat) (b : Book.t) : Prop :=
  exists i, (lo <= i < hi)%nat /\ Book.scraped_at b = wall_clock w i.



(** The most requests one call of [_fetch_page] can issue. *)
Definition attempts_per_page (self : DataScraper) : nat :=
  Z.to_nat (ScraperConfig.max_retries (scraper_config self) + 1).



(** [DEFAULT_CONFIG] as loaded with [MAX_RETRIES=-1] in the environment. *)
Definition periplus_no_retries : DataScraper :=
  mkDataScraper PERIPLUS_CONFIG
    (ScraperConfig.mk (SiteConfig.base_url PERIPLUS_CONFIG) "103" 5 1%Q (-1) 30
                      "json" "output" 5).


(** The clock never runs backwards. *)
Definition monotone_clock (w : World) : Prop :=
  forall i j, (i <= j)%nat -> wall_clock w i <= wall_clock w j.

(* ===================================================================== *)
(** ** main.py                                                            *)
(* ===================================================================== *)

Module Main.

(** The namespace [parser.parse_args()] returns: [--category-param] and
    [--categories] have no default, the numeric options always hold a
    number. *)
Record Args : Type := mkArgs {
  category : string;
  category_param : option string;
  max_pages : Z;
  multiple : bool;
  categories : option string;
  delay : Q;
  retries : Z;
  timeout : Z;
  concurrent : Z;
  output_format : string;
  output_dir : string;
  log_level : string
}.

(** [x or d] on [int] *)
Definition or_int (x d : Z) : Z := if x =? 0 then d else x.

(** [x or d] on [float] *)
Definition or_float (x d : Q) : Q := if Qeq_bool x 0 then d else x.

(** [x or d] on [str] *)
Definition or_string (x d : string) : string := if PyStr.truthy x then x else d.

(** [create_custom_config] (lines 32-45); [DEFAULT] stands for the module
    global [DEFAULT_CONFIG], whose value depends on the environment. *)
Definition create_custom_config (DEFAULT : ScraperConfig.t) (args : Args)
  : ScraperConfig.t :=
  ScraperConfig.mk
    (ScraperConfig.base_url DEFAULT)
    (match category_param args with
     | Some p => or_string p (ScraperConfig.category_param DEFAULT)
     | None => ScraperConfig.category_param DEFAULT
     end)
    (or_int (max_pages args) (ScraperConfig.max_pages DEFAULT))
    (or_float (delay args) (ScraperConfig.delay_between_requests DEFAULT))
    (or_int (retries args) (ScraperConfig.max_retries DEFAULT))
    (or_int (timeout args) (ScraperConfig.timeout DEFAULT))
    (or_string (output_format args) (ScraperConfig.output_format DEFAULT))
    (or_string (output_dir args) (ScraperConfig.output_directory DEFAULT))
    (or_int (concurrent args) (ScraperConfig.concurrent_requests DEFAULT)).

(** [s.split(sep)] for a one-character separator *)
Fixpoint split_char (sep : ascii) (s : string) : list string :=
  match s with
  | EmptyString => [""]
  | String c rest =>
      if Ascii.eqb c sep then "" :: split_char sep rest
      else match split_char sep rest with
           | piece :: pieces => String c piece :: pieces
           | [] => [String c ""]
           end
  end.

(** [s.split(sep, 1)] for a one-character separator that occurs in [s]:
    what precedes its first occurrence, and what follows it. *)
Fixpoint split_once (sep : ascii) (s : string) : string * string :=
  match s with
  | EmptyString => ("", "")
  | String c rest =>
      if Ascii.eqb c sep then ("", rest)
      else let '(before, after) := split_once sep rest in (String c before, after)
  end.

(** The [for category_pair in args.categories.split(',')] loop of
    [run_multiple_categories_scraper] (lines 85-92); [predefined] is
    [PERIPLUS_CONFIG.category_params] in insertion order. *)
Fixpoint collect_categories (predefined : dict string) (pairs : list string)
    (categories : dict string) : dict string :=
  match pairs with
  | [] => categories
  | category_pair :: rest =>
      if PyStr.contains ":" category_pair then
        let '(name, param) := split_once ":" category_pair in
        collect_categories predefined rest
          (dict_set (PyStr.strip name) (PyStr.strip param) categories)
      else
        match dict_get (PyStr.strip category_pair) predefined with
        | Some param =>
            collect_categories predefined rest
              (dict_set (PyStr.strip category_pair) param categories)
        | None => collect_categories predefined rest categories
        end
  end.

(** The mapping [run_multiple_categories_scraper] hands to
    [scrape_multiple_categories] (lines 81-96). *)
Definition categories_from_args (predefined : dict string) (args : Args)
  : dict string :=
  let collected :=
    if truthy_opt (categories args)
    then collect_categories predefined
           (split_char "," (default "" (categories args))) []
    else [] in
  match collected with
  | [] => predefined
  | _ :: _ => collected
  end.

(** [PERIPLUS_CONFIG.category_params], in insertion order. *)
Definition PERIPLUS_CATEGORY_PARAMS : dict string :=
  [("new_releases", "103"); ("bestsellers", "104"); ("featured", "105")].

(** The arguments of a plain [python main.py]. *)
Definition default_args : Args :=
  mkArgs "new_releases" None 5 false None 1%Q 3 30 5 "json" "output" "INFO".

(** [python main.py --multiple --categories <c>] *)
Definition args_with_categories (c : string) : Args :=
  mkArgs "new_releases" None 5 true (Some c) 1%Q 3 30 5 "json" "output" "INFO".

(** [python main.py --retries 0 --delay 0 --max-pages 0] *)
Definition args_all_zero : Args :=
  mkArgs "new_releases" None 0 false None 0%Q 0 30 5 "json" "output" "INFO".

End Main.

Ltac run_monad :=
  unfold bind, ret, try_except, emit, errors_append, lift, raise, response_text,
    get_errors, now; simpl.

(** *** The samples behave as their markup says *)

Example strip_price : PyStr.strip "  Rp 90,000 " = "Rp 90,000".
Proof. reflexivity. Qed.

Example quote_plus_route : PyStr.quote_plus "product/category" = "product%2Fcategory".
Proof. reflexivity. Qed.

Example category_url_page1 :
  _build_category_url Samples.periplus "103" 1 = Samples.url_page1.
Proof. reflexivity. Qed.

Example category_url_page2 :
  _build_category_url Samples.periplus "103" 2 = Samples.url_page2.
Proof. reflexivity. Qed.

Example title_of_discounted_entry :
  option_map Soup.get_text_strip
    (Soup.select_one Samples.discounted_entry [tag_sel "h3"; tag_sel "a"])
  = Some "Book 7".
Proof. reflexivity. Qed.

Example struck_price_is_skipped :
  map is_current_price
      (Soup.find_all
         (Soup.mkElement "div" [("class", "product-price")]
            [Samples.struck_price "Rp 120,000";
             Soup.Tag "div" [] [Soup.NavigableString "Rp 90,000"]] [])
         "div")
  = [false; true].
Proof. reflexivity. Qed.

Example next_page_of_page1 :
  _get_next_page_url (Samples.world_with Samples.server_two_pages) Samples.periplus
    (Samples.html_of Samples.doc_page1) Samples.url_page1 Samples.opened
  = (Ret (Some Samples.url_page2), Samples.opened).
Proof. vm_compute. reflexivity. Qed.

Example no_next_page_of_page2 :
  _get_next_page_url (Samples.world_with Samples.server_two_pages) Samples.periplus
    (Samples.html_of Samples.doc_page2) Samples.url_page2 Samples.opened
  = (Ret None, Samples.opened).
Proof. vm_compute. reflexivity. Qed.

Section Fetcher.

Context (w : World) (self : DataScraper).

Lemma range_succ (n : Z) :
  0 <= n -> range (n + 1) = (range n ++ [n])%list.
Proof.
  intros Hn. unfold range.
  replace (Z.to_nat (n + 1)) with (Z.to_nat n + 1)%nat by lia.
  rewrite seq_app, map_app. simpl. by rewrite Z2Nat.id.
Qed.

Lemma range_nonpos (n : Z) : n <= 0 -> range n = [].
Proof. intros Hn. unfold range. by replace (Z.to_nat n) with 0%nat by lia. Qed.

Lemma range_length (n : Z) : length (range n) = Z.to_nat n.
Proof. unfold range. by rewrite length_map, length_seq. Qed.

(** One attempt on which the request raises. *)
Lemma fetch_attempt_raises url retries attempt s e :
  session s = true ->
  server w (requests s) url = Raise e ->
  fetch_attempt w url retries attempt s =
    (Ret None,
     if attempt =? retries
     then with_error (attempt_failed_msg attempt url e) (requested url s)
     else record [Backoff (2 ^ attempt)] (requested url s)).
Proof.
  intros Hs Hsrv. unfold fetch_attempt, session_get. run_monad.
  rewrite Hs, Hsrv. by destruct (attempt =? retries).
Qed.

(** One attempt answered with a status other than 200. *)
Lemma fetch_attempt_status url retries attempt s r :
  session s = true ->
  server w (requests s) url = Ret r ->
  status r <> 200 ->
  fetch_attempt w url retries attempt s =
    (Ret None,
     if status r =? 429
     then record [Backoff (2 ^ attempt)] (requested url s)
     else requested url s).
Proof.
  intros Hs Hsrv Hst. unfold fetch_attempt, session_get. run_monad.
  rewrite Hs, Hsrv.
  destruct (Z.eqb_spec (status r) 200) as [|_]; [done|].
  by destruct (status r =? 429).
Qed.

(** One attempt answered with 200 and a readable body. *)
Lemma fetch_attempt_content url retries attempt s r content :
  session s = true ->
  server w (requests s) url = Ret r ->
  status r = 200 -> text r = Ret content ->
  fetch_attempt w url retries attempt s = (Ret (Some content), requested url s).
Proof.
  intros Hs Hsrv Hst Htx. unfold fetch_attempt, session_get. run_monad.
  by rewrite Hs, Hsrv, Hst, Htx.
Qed.

(** An attempt that is not the last and delivers no content: it returns
    nothing, appends no error and issues exactly one request. *)
Lemma fetch_attempt_no_content url retries attempt s :
  session s = true ->
  delivers (server w (requests s) url) = false ->
  attempt <> retries ->
  exists s' evs,
    fetch_attempt w url retries attempt s = (Ret None, s')
    /\ errors s' = errors s /\ session s' = true
    /\ requests s' = S (requests s) /\ clock_reads s' = clock_reads s
    /\ trace s' = (trace s ++ Get url :: evs)%list.
Proof.
  intros Hs Hd Hne. unfold fetch_attempt, session_get. run_monad.
  rewrite Hs. unfold delivers in Hd.
  apply Z.eqb_neq in Hne.
  destruct (server w (requests s) url) as [r|e]; simpl.
  - destruct (status r =? 200) eqn:H200.
    + destruct (text r) as [c|e]; [done|]. simpl. rewrite Hne. simpl.
      eexists _, [_]. repeat split; try done. simpl. by rewrite <- app_assoc.
    + destruct (status r =? 429); simpl.
      * eexists _, [_]. repeat split; try done. simpl. by rewrite <- app_assoc.
      * eexists _, []. by repeat split.
  - rewrite Hne. simpl.
    eexists _, [_]. repeat split; try done. simpl. by rewrite <- app_assoc.
Qed.

(** A stretch of attempts, none the last, none delivering content. *)
Lemma fetch_attempts_no_content url retries n : forall i s rest,
  session s = true ->
  (forall k, (k < n)%nat -> delivers (server w (requests s + k) url) = false) ->
  (forall k, (k < n)%nat -> Z.of_nat (i + k) <> retries) ->
  exists s' evs,
    fetch_attempts w url retries (map Z.of_nat (seq i n) ++ rest) s =
      fetch_attempts w url retries rest s'
    /\ errors s' = errors s /\ session s' = true
    /\ requests s' = (requests s + n)%nat /\ clock_reads s' = clock_reads s
    /\ trace s' = (trace s ++ evs)%list.
Proof.
  induction n as [|n IH]; intros i s rest Hs Hd Hne.
  - exists s, []. simpl. rewrite app_nil_r. repeat split; try done; lia.
  - simpl.
    destruct (fetch_attempt_no_content url retries (Z.of_nat i) s Hs)
      as (s1 & ev1 & Hstep & He1 & Hs1 & Hr1 & Hc1 & Ht1).
    { specialize (Hd 0%nat ltac:(lia)). by rewrite Nat.add_0_r in Hd. }
    { specialize (Hne 0%nat ltac:(lia)). by rewrite Nat.add_0_r in Hne. }
    destruct (IH (S i) s1 rest Hs1) as (s2 & ev2 & Hrun & He2 & Hs2 & Hr2 & Hc2 & Ht2).
    { intros k Hk. rewrite Hr1.
      replace (S (requests s) + k)%nat with (requests s + S k)%nat by lia.
      apply Hd. lia. }
    { intros k Hk. replace (S i + k)%nat with (i + S k)%nat by lia.
      apply Hne. lia. }
    exists s2, (Get url :: ev1 ++ ev2)%list.
    unfold bind at 1. rewrite Hstep. rewrite Hrun.
    repeat split; try congruence; try lia.
    rewrite Ht2, Ht1. by rewrite <- app_assoc.
Qed.

(** A whole run on which every request is answered with HTTP 429. *)
Lemma fetch_attempts_rate_limited url retries : forall attempts s,
  session s = true ->
  (forall k, (k < length attempts)%nat ->
     exists r, server w (requests s + k) url = Ret r /\ status r = 429) ->
  fetch_attempts w url retries attempts s =
    (Ret None,
     mkState (errors s) true (trace s ++ rate_limited_trace url attempts)
             (requests s + length attempts) (clock_reads s)).
Proof.
  induction attempts as [|a l IH]; intros s Hs Hsrv.
  - simpl. unfold ret. destruct s; simpl in *. subst.
    by rewrite app_nil_r, Nat.add_0_r.
  - destruct (Hsrv 0%nat ltac:(simpl; lia)) as (r & Hr & Hst).
    rewrite Nat.add_0_r in Hr.
    simpl. unfold bind at 1.
    rewrite (fetch_attempt_status url retries a s r Hs Hr) by (rewrite Hst; lia).
    rewrite Hst. simpl.
    rewrite IH; simpl; [|done|].
    + do 2 f_equal; [by rewrite <- !app_assoc | lia].
    + intros k Hk. rewrite <- Nat.add_succ_r. apply Hsrv. simpl. lia.
Qed.

(** A whole run on which every request is answered with a status other
    than 200 and 429. *)
Lemma fetch_attempts_http_errors url retries : forall attempts s,
  session s = true ->
  (forall k, (k < length attempts)%nat ->
     exists r, server w (requests s + k) url = Ret r
               /\ status r <> 200 /\ status r <> 429) ->
  fetch_attempts w url retries attempts s =
    (Ret None,
     mkState (errors s) true (trace s ++ repeat (Get url) (length attempts))
             (requests s + length attempts) (clock_reads s)).
Proof.
  induction attempts as [|a l IH]; intros s Hs Hsrv.
  - simpl. unfold ret. destruct s; simpl in *. subst.
    by rewrite app_nil_r, Nat.add_0_r.
  - destruct (Hsrv 0%nat ltac:(simpl; lia)) as (r & Hr & H200 & H429).
    rewrite Nat.add_0_r in Hr.
    simpl. unfold bind at 1.
    rewrite (fetch_attempt_status url retries a s r Hs Hr H200).
    apply Z.eqb_neq in H429. rewrite H429.
    rewrite IH; simpl; [|done|].
    + do 2 f_equal; [by rewrite <- !app_assoc | lia].
    + intros k Hk. rewrite <- Nat.add_succ_r. apply Hsrv. simpl. lia.
Qed.

End Fetcher.

Section FetcherClaims.

Context (w : World) (self : DataScraper).

(** C3. With [max_retries = 3] and every request raising a transport-level
    failure, [_fetch_page] issues exactly four requests (attempts 0..3),
    sleeps 1, 2 and 4 seconds after the three non-final failures, does not
    sleep after the last one, returns [None], and appends exactly one entry
    to [self.errors]: the message of the fourth attempt. *)
Theorem fetch_page_retry_count url retries s (e : nat -> exn) :
  session s = true ->
  default (ScraperConfig.max_retries (scraper_config self)) retries = 3 ->
  (forall k, (k < 4)%nat -> server w (requests s + k) url = Raise (e k)) ->
  exists s',
    _fetch_page w self url retries s = (Ret None, s')
    /\ requests s' = (requests s + 4)%nat
    /\ trace s' = (trace s ++ [Get url; Backoff 1; Get url; Backoff 2;
                               Get url; Backoff 4; Get url])%list
    /\ errors s' = (errors s ++ [attempt_failed_msg 3 url (e 3%nat)])%list.
Proof.
  intros Hs Hretries Hsrv. unfold _fetch_page. rewrite Hretries.
  change (range (3 + 1)) with [0; 1; 2; 3].
  pose proof (Hsrv 0%nat ltac:(lia)) as H0. rewrite Nat.add_0_r in H0.
  pose proof (Hsrv 1%nat ltac:(lia)) as H1.
  pose proof (Hsrv 2%nat ltac:(lia)) as H2.
  pose proof (Hsrv 3%nat ltac:(lia)) as H3.
  replace (requests s + 1)%nat with (S (requests s)) in H1 by lia.
  replace (requests s + 2)%nat with (S (S (requests s))) in H2 by lia.
  replace (requests s + 3)%nat with (S (S (S (requests s)))) in H3 by lia.
  cbn [fetch_attempts]. unfold bind.
  rewrite (fetch_attempt_raises w url 3 0 s _ Hs H0).
  cbn [Z.eqb]. cbv iota.
  rewrite (fetch_attempt_raises w url 3 1 _ (e 1%nat)); [|done|done].
  cbn [Z.eqb Pos.eqb]. cbv iota.
  rewrite (fetch_attempt_raises w url 3 2 _ (e 2%nat)); [|done|done].
  cbn [Z.eqb Pos.eqb]. cbv iota.
  rewrite (fetch_attempt_raises w url 3 3 _ (e 3%nat)); [|done|done].
  cbn [Z.eqb Pos.eqb]. cbv iota.
  eexists. split; [reflexivity|]. simpl.
  repeat split; [lia|]. by rewrite <- !app_assoc.
Qed.

(** C2 (amended). A response whose status is neither 200 nor 429 uses up
    the attempt and nothing more: the attempt issues its request, returns
    nothing, does not sleep and appends no error, whether or not it is the
    last one. A run in which every attempt is answered that way issues
    [retries + 1] requests back to back, returns [None] and leaves
    [self.errors] as it was. *)
Theorem fetch_page_http_error url retries s :
  session s = true ->
  let n := default (ScraperConfig.max_retries (scraper_config self)) retries in
  (forall attempt r,
     server w (requests s) url = Ret r -> status r <> 200 -> status r <> 429 ->
     fetch_attempt w url n attempt s = (Ret None, requested url s))
  /\
  ((forall k, (k < Z.to_nat (n + 1))%nat ->
      exists r, server w (requests s + k) url = Ret r
                /\ status r <> 200 /\ status r <> 429) ->
   _fetch_page w self url retries s =
     (Ret None,
      mkState (errors s) true (trace s ++ repeat (Get url) (Z.to_nat (n + 1)))
              (requests s + Z.to_nat (n + 1)) (clock_reads s))).
Proof.
  intros Hs n. split.
  - intros attempt r Hr H200 H429.
    rewrite (fetch_attempt_status w url n attempt s r Hs Hr H200).
    apply Z.eqb_neq in H429. by rewrite H429.
  - intros Hsrv. unfold _fetch_page. fold n.
    rewrite (fetch_attempts_http_errors w url n (range (n + 1)) s Hs);
      rewrite range_length; done.
Qed.

(** C10. If the request of the last attempt (index [retries]) is answered
    with HTTP 429, and no earlier attempt delivered content, [_fetch_page]
    still sleeps [2 ^ retries] seconds as its last action, then returns
    [None] with [self.errors] unchanged. When every request is answered
    with 429 the run is request, sleep, request, sleep, ... for all
    [retries + 1] attempts, returns [None] and appends no error. *)
Theorem fetch_page_rate_limited url retries s :
  session s = true ->
  let n := default (ScraperConfig.max_retries (scraper_config self)) retries in
  (0 <= n ->
   (forall k, (k < Z.to_nat n)%nat ->
      delivers (server w (requests s + k) url) = false) ->
   (exists r, server w (requests s + Z.to_nat n) url = Ret r /\ status r = 429) ->
   exists s' evs,
     _fetch_page w self url retries s = (Ret None, s')
     /\ errors s' = errors s
     /\ trace s' = (trace s ++ evs ++ [Get url; Backoff (2 ^ n)])%list)
  /\
  ((forall k, exists r, server w (requests s + k) url = Ret r /\ status r = 429) ->
   exists s',
     _fetch_page w self url retries s = (Ret None, s')
     /\ errors s' = errors s
     /\ trace s' = (trace s ++ rate_limited_trace url (range (n + 1)))%list).
Proof.
  intros Hs n. split.
  - intros Hn Hearlier (r & Hr & Hst).
    unfold _fetch_page. fold n. rewrite (range_succ n Hn). unfold range.
    destruct (fetch_attempts_no_content w url n (Z.to_nat n) 0%nat s [n] Hs Hearlier)
      as (s1 & evs & Hrun & He1 & Hs1 & Hr1 & _ & Ht1).
    { intros k Hk. simpl. lia. }
    rewrite Hrun. cbn [fetch_attempts]. unfold bind.
    rewrite <- Hr1 in Hr.
    rewrite (fetch_attempt_status w url n n s1 r Hs1 Hr) by lia.
    rewrite Hst. simpl.
    eexists _, evs. split; [reflexivity|]. simpl. split; [done|].
    rewrite Ht1. by rewrite <- !app_assoc.
  - intros Hall. unfold _fetch_page. fold n.
    rewrite (fetch_attempts_rate_limited w url n (range (n + 1)) s Hs).
    + eexists. split; [reflexivity|]. by simpl.
    + intros k _. apply Hall.
Qed.

End FetcherClaims.

Lemma fetch_page_retry_count_witness :
  exists s',
    _fetch_page (Samples.world_with Samples.server_down) Samples.periplus
                Samples.url_page1 None Samples.opened = (Ret None, s')
    /\ requests s' = 4%nat
    /\ trace s' = [Get Samples.url_page1; Backoff 1; Get Samples.url_page1; Backoff 2;
                   Get Samples.url_page1; Backoff 4; Get Samples.url_page1]
    /\ length (errors s') = 1%nat.
Proof.
  destruct (fetch_page_retry_count (Samples.world_with Samples.server_down)
              Samples.periplus Samples.url_page1 None Samples.opened
              (fun k => Exception ("Connection refused #" +:+ pretty k)))
    as (s' & Hrun & Hreq & Htr & Herr).
  - reflexivity.
  - reflexivity.
  - intros k _. reflexivity.
  - exists s'. rewrite Herr. repeat split; assumption.
Defined.

(** C2 as stated fails: with every request answered by HTTP 500 and one
    retry allowed, the two requests follow each other with no sleep in
    between and the exhausted run leaves [self.errors] empty, whereas the
    same run against transport failures sleeps one second between the
    requests and records an error. *)
Lemma http_error_unlike_transport_error :
  let on_500 := snd (_fetch_page (Samples.world_with Samples.server_500)
                       Samples.periplus Samples.url_page1 (Some 1) Samples.opened) in
  let on_down := snd (_fetch_page (Samples.world_with Samples.server_down)
                        Samples.periplus Samples.url_page1 (Some 1) Samples.opened) in
  (trace on_down = [Get Samples.url_page1; Backoff 1; Get Samples.url_page1]
   /\ length (errors on_down) = 1%nat)
  /\ (trace on_500 = [Get Samples.url_page1; Get Samples.url_page1]
      /\ errors on_500 = []
      /\ ~ In (Backoff 1) (trace on_500)).
Proof.
  vm_compute. repeat split; try reflexivity.
  intros [H|[H|[]]]; discriminate H.
Qed.

Lemma fetch_page_http_error_witness :
  _fetch_page (Samples.world_with Samples.server_500) Samples.periplus
              Samples.url_page1 (Some 1) Samples.opened =
    (Ret None,
     mkState [] true [Get Samples.url_page1; Get Samples.url_page1] 2%nat 0%nat).
Proof.
  destruct (fetch_page_http_error (Samples.world_with Samples.server_500)
              Samples.periplus Samples.url_page1 (Some 1) Samples.opened eq_refl)
    as [_ Hrun].
  rewrite Hrun.
  - reflexivity.
  - intros k _. eexists. split; [reflexivity|]. split; discriminate.
Defined.

Lemma fetch_page_rate_limited_witness :
  (exists s' evs,
     _fetch_page (Samples.world_with Samples.server_429) Samples.periplus
                 Samples.url_page1 (Some 2) Samples.opened = (Ret None, s')
     /\ errors s' = []
     /\ trace s' = (evs ++ [Get Samples.url_page1; Backoff 4])%list)
  /\
  (exists s',
     _fetch_page (Samples.world_with Samples.server_429) Samples.periplus
                 Samples.url_page1 (Some 2) Samples.opened = (Ret None, s')
     /\ errors s' = []
     /\ trace s' = [Get Samples.url_page1; Backoff 1; Get Samples.url_page1;
                    Backoff 2; Get Samples.url_page1; Backoff 4]).
Proof.
  destruct (fetch_page_rate_limited (Samples.world_with Samples.server_429)
              Samples.periplus Samples.url_page1 (Some 2) Samples.opened eq_refl)
    as [Hlast Hall].
  split.
  - destruct Hlast as (s' & evs & Hrun & Herr & Htr).
    + simpl. lia.
    + intros k _. reflexivity.
    + eexists. split; reflexivity.
    + exists s', evs. repeat split; assumption.
  - destruct Hall as (s' & Hrun & Herr & Htr).
    + intros k. eexists. split; reflexivity.
    + exists s'. repeat split; assumption.
Defined.

(* ===================================================================== *)
(** ** Properties of the record extractor                                 *)
(* ===================================================================== *)

Lemma bind_ret_l {A B} (a : A) (k : A -> M B) (s : state) :
  bind (ret a) k s = k a s.
Proof. reflexivity. Qed.

Lemma bind_returns {A B} (m : M A) (k : A -> M B) (s s' : state) (a : A) :
  m s = (Ret a, s') -> bind m k s = k a s'.
Proof. unfold bind. by intros ->. Qed.

Lemma bind_raises {A B} (m : M A) (k : A -> M B) (s s' : state) (e : exn) :
  m s = (Raise e, s') -> bind m k s = (Raise e, s').
Proof. unfold bind. by intros ->. Qed.

Lemma bind_now {B} (w : World) (k : datetime -> M B) (s : state) :
  bind (now w) k s = k (wall_clock w (clock_reads s)) (snd (now w s)).
Proof. reflexivity. Qed.

Lemma bind_get_errors {B} (k : list string -> M B) (s : state) :
  bind get_errors k s = k (errors s) s.
Proof. reflexivity. Qed.

Section Extractor.

Context (w : World) (self : DataScraper).

Lemma truthy_nonempty (t : string) : PyStr.truthy t = true -> t <> "".
Proof. by destruct t. Qed.

(** [current_price] finds nothing exactly when no [div] passes the test. *)
Lemma current_price_none divs :
  Forall (fun d => is_current_price d = false) divs ->
  current_price divs = None.
Proof.
  induction 1 as [|d l Hd _ IH]; simpl; [done|]. by rewrite Hd.
Qed.

(** [current_price] returns the text of the first [div] that passes. *)
Lemma current_price_first pre d post :
  Forall (fun x => is_current_price x = false) pre ->
  is_current_price d = true ->
  current_price (pre ++ d :: post) = Some (Soup.get_text_strip d).
Proof.
  induction 1 as [|x l Hx _ IH]; intros Hd; simpl.
  - by rewrite Hd.
  - rewrite Hx. by apply IH.
Qed.

(** What the [try] block of [_parse_book] does: it raises before any
    effect, or falls through without effect, or builds a titled book
    after one reading of the clock. *)
Lemma parse_book_body_cases book_element category s :
  (exists e, parse_book_body w self book_element category s = (Raise e, s))
  \/ parse_book_body w self book_element category s = (Ret None, s)
  \/ (exists b title_sel price_sel t,
        parse_book_body w self book_element category s =
          (Ret (Some b), snd (now w s))
        /\ SiteConfig.selectors (site_config self) !! "title" = Some title_sel
        /\ SiteConfig.selectors (site_config self) !! "price" = Some price_sel
        /\ option_map Soup.get_text_strip (Soup.select_one book_element title_sel)
           = Some t
        /\ PyStr.truthy t = true
        /\ Book.title b = t
        /\ Book.price b =
             match Soup.select_one book_element price_sel with
             | Some p =>
                 match current_price (Soup.find_all p "div") with
                 | Some text => Some text
                 | None => Some (Soup.get_text_strip p)
                 end
             | None => None
             end).
Proof.
  unfold parse_book_body, selector_for.
  destruct (SiteConfig.selectors (site_config self) !! "title") as [st|] eqn:E1;
    [|left; by eexists].
  destruct (SiteConfig.selectors (site_config self) !! "author") as [sa|] eqn:E2;
    [|left; by eexists].
  destruct (SiteConfig.selectors (site_config self) !! "price") as [sp|] eqn:E3;
    [|left; by eexists].
  destruct (SiteConfig.selectors (site_config self) !! "image") as [si|] eqn:E4;
    [|left; by eexists].
  destruct (SiteConfig.selectors (site_config self) !! "link") as [sl|] eqn:E5;
    [|left; by eexists].
  destruct (SiteConfig.selectors (site_config self) !! "availability") as [sv|] eqn:E6;
    [|left; by eexists].
  rewrite !bind_ret_l.
  destruct (option_map Soup.get_text_strip (Soup.select_one book_element st))
    as [t|] eqn:Et; [|right; by left].
  destruct (PyStr.truthy t) eqn:Htruthy; [|right; by left].
  right. right. eexists _, st, sp, t. split; [reflexivity|].
  repeat split; done.
Qed.

(** [_parse_book] never lets an exception out. *)
Lemma parse_book_total book_element category s :
  exists r s', _parse_book w self book_element category s = (Ret r, s').
Proof.
  unfold _parse_book, try_except.
  destruct (parse_book_body_cases book_element category s)
    as [[e ->]|[->|(b & ? & ? & ? & -> & _)]]; [|by eauto..].
  run_monad. by eauto.
Qed.

Lemma parse_book_titled book_element category s b s' :
  _parse_book w self book_element category s = (Ret (Some b), s') ->
  Book.title b <> "".
Proof.
  unfold _parse_book, try_except.
  destruct (parse_book_body_cases book_element category s)
    as [[e ->]|[->|(b' & ? & ? & t & -> & _ & _ & _ & Ht & Hb & _)]].
  - run_monad. discriminate.
  - discriminate.
  - intros [= <- _]. rewrite Hb. by apply truthy_nonempty.
Qed.

Lemma parse_books_total : forall actual_books category books s,
  exists books' s', parse_books w self actual_books category books s = (Ret books', s').
Proof.
  induction actual_books as [|el l IH]; intros category books s; simpl.
  - by eexists _, _.
  - unfold bind.
    destruct (parse_book_total el category s) as (r & s1 & ->).
    destruct r; apply IH.
Qed.

Lemma parse_books_titled : forall actual_books category books s books' s',
  Forall (fun b => Book.title b <> "") books ->
  parse_books w self actual_books category books s = (Ret books', s') ->
  Forall (fun b => Book.title b <> "") books'.
Proof.
  induction actual_books as [|el l IH]; intros category books s books' s' Hacc; simpl.
  - by intros [= <- _].
  - unfold bind.
    destruct (_parse_book w self el category s) as [[[b|]|e] s1] eqn:Hb; [| |done].
    + apply IH. apply Forall_app. split; [done|].
      constructor; [|done]. by eapply parse_book_titled.
    + by apply IH.
Qed.

Lemma parse_page_returns html category s books s' :
  _parse_page w self html category s = (Ret books, s') ->
  Forall (fun b => Book.title b <> "") books.
Proof.
  unfold _parse_page, selector_for, lift. unfold bind at 1.
  destruct (BeautifulSoup w html) as [soup|e]; [|done].
  unfold bind.
  destruct (SiteConfig.selectors (site_config self) !! "product_container");
    [|done].
  unfold ret at 1. by apply parse_books_titled.
Qed.

End Extractor.

Section ExtractorClaims.

Context (w : World) (self : DataScraper).

(** C6. Every record the extractor emits has a non-empty title: this holds
    for the books [_parse_page] returns (and it does return whenever the
    parser and the container selector are available) and for the book
    [_parse_book] returns, which never raises. A candidate whose title is
    missing (no title element, or one with no text) yields no record; the
    state, and so [self.errors], is left untouched unless the extraction
    itself raised, in which case exactly that error is appended. *)
Theorem extractor_titles :
  (forall html category s books s',
     _parse_page w self html category s = (Ret books, s') ->
     Forall (fun b => Book.title b <> "") books)
  /\ (forall html category s soup sel,
        BeautifulSoup w html = Ret soup ->
        SiteConfig.selectors (site_config self) !! "product_container" = Some sel ->
        exists books s', _parse_page w self html category s = (Ret books, s'))
  /\ (forall book_element category s,
        exists r s',
          _parse_book w self book_element category s = (Ret r, s')
          /\ forall b, r = Some b -> Book.title b <> "")
  /\ (forall book_element category s title_sel,
        SiteConfig.selectors (site_config self) !! "title" = Some title_sel ->
        truthy_opt (option_map Soup.get_text_strip
                      (Soup.select_one book_element title_sel)) = false ->
        exists s',
          _parse_book w self book_element category s = (Ret None, s')
          /\ match parse_book_body w self book_element category s with
             | (Ret _, _) => s' = s
             | (Raise e, _) =>
                 s' = with_error ("Error parsing book: " +:+ str_exn e) s
             end).
Proof.
  split; [|split; [|split]].
  - intros html category s books s'. apply parse_page_returns.
  - intros html category s soup sel Hsoup Hsel.
    unfold _parse_page, selector_for, lift. unfold bind at 1. rewrite Hsoup.
    unfold bind. rewrite Hsel. unfold ret at 1. apply parse_books_total.
  - intros book_element category s.
    destruct (parse_book_total w self book_element category s) as (r & s' & Hr).
    exists r, s'. split; [done|]. intros b ->. by eapply parse_book_titled.
  - intros book_element category s title_sel Hsel Htitle.
    unfold _parse_book, try_except.
    destruct (parse_book_body_cases w self book_element category s)
      as [[e ->]|[->|(b & st & _ & t & _ & Hst & _ & Ht & Htruthy & _)]].
    + run_monad. by eexists.
    + by eexists.
    + rewrite Hsel in Hst. injection Hst as <-.
      rewrite Ht in Htitle. simpl in Htitle. congruence.
Qed.

(** C7 (amended). For a record emitted from a candidate with a price
    selector: without a price container the price is absent; with one,
    the price is the stripped text of the first [div] below the container
    (document order) whose text is non-empty, contains [Rp] and whose
    markup does not contain [text-decoration:line-through]; and when no
    [div] passes that test, the price is the whole stripped text of the
    price container. *)
Theorem parse_book_price book_element category s b s' price_sel :
  _parse_book w self book_element category s = (Ret (Some b), s') ->
  SiteConfig.selectors (site_config self) !! "price" = Some price_sel ->
  match Soup.select_one book_element price_sel with
  | None => Book.price b = None
  | Some p =>
      (forall pre d post,
         Soup.find_all p "div" = (pre ++ d :: post)%list ->
         Forall (fun x => is_current_price x = false) pre ->
         is_current_price d = true ->
         Book.price b = Some (Soup.get_text_strip d))
      /\ (Forall (fun x => is_current_price x = false) (Soup.find_all p "div") ->
          Book.price b = Some (Soup.get_text_strip p))
  end.
Proof.
  unfold _parse_book, try_except. intros Hrun Hsel.
  destruct (parse_book_body_cases w self book_element category s)
    as [[e He]|[He|(b' & _ & sp & _ & He & _ & Hsp & _ & _ & _ & Hprice)]];
    rewrite He in Hrun.
  - revert Hrun. run_monad. discriminate.
  - discriminate.
  - injection Hrun as <- _. rewrite Hsel in Hsp. injection Hsp as <-.
    rewrite Hprice.
    destruct (Soup.select_one book_element price_sel) as [p|]; [|done].
    split.
    + intros pre d post Hdivs Hpre Hd.
      by rewrite Hdivs, (current_price_first pre d post Hpre Hd).
    + intros Hnone. by rewrite (current_price_none _ Hnone).
Qed.

End ExtractorClaims.

Lemma extractor_titles_witness :
  _parse_book (Samples.world_with Samples.server_two_pages) Samples.periplus
              Samples.untitled_entry "new_releases" Samples.opened
  = (Ret None, Samples.opened).
Proof.
  destruct (extractor_titles (Samples.world_with Samples.server_two_pages)
              Samples.periplus) as (_ & _ & _ & Hdrop).
  destruct (Hdrop Samples.untitled_entry "new_releases" Samples.opened
              [tag_sel "h3"; tag_sel "a"] eq_refl eq_refl) as (s' & Hrun & Hs').
  vm_compute in Hs'. rewrite Hrun. by rewrite Hs'.
Defined.

(** C7 as stated fails: the price container of this entry holds a
    struck-through original price and a plain current price (in a [span]),
    yet the extracted price is neither the plain price text nor the first
    text of the container, but all the container's text run together. *)
Lemma price_not_plain_price :
  exists b s',
    _parse_book (Samples.world_with Samples.server_two_pages) Samples.periplus
                Samples.discounted_span_entry "new_releases" Samples.opened
    = (Ret (Some b), s')
    /\ Book.price b = Some "Rp 120,000Rp 90,000"
    /\ Book.price b <> Some "Rp 90,000"
    /\ Book.price b <> Some "Rp 120,000".
Proof.
  eexists _, _. split; [vm_compute; reflexivity|].
  repeat split; discriminate.
Qed.

Lemma parse_book_price_witness :
  exists b s',
    _parse_book (Samples.world_with Samples.server_two_pages) Samples.periplus
                Samples.discounted_entry "new_releases" Samples.opened
    = (Ret (Some b), s')
    /\ Book.price b = Some "Rp 90,000".
Proof.
  destruct (_parse_book (Samples.world_with Samples.server_two_pages)
              Samples.periplus Samples.discounted_entry "new_releases"
              Samples.opened) as [[[b|]|e] s'] eqn:Hrun;
    try (vm_compute in Hrun; discriminate Hrun).
  exists b, s'. split; [reflexivity|].
  pose proof (parse_book_price (Samples.world_with Samples.server_two_pages)
                Samples.periplus Samples.discounted_entry "new_releases"
                Samples.opened b s' [class_sel "product-price"] Hrun eq_refl) as H.
  destruct (Soup.select_one Samples.discounted_entry [class_sel "product-price"])
    as [p|] eqn:Hp; [|vm_compute in Hp; discriminate Hp].
  vm_compute in Hp. injection Hp as <-.
  destruct H as [Hfirst _].
  apply (Hfirst [_] _ [] eq_refl); [|reflexivity].
  constructor; [reflexivity|constructor].
Defined.

(* ===================================================================== *)
(** ** Properties of the category walker                                  *)
(* ===================================================================== *)

Section Walker.

Context (w : World) (self : DataScraper).

Lemma after_delay_run s :
  (if Q_gt0 (ScraperConfig.delay_between_requests (scraper_config self))
   then emit (Delay (ScraperConfig.delay_between_requests (scraper_config self)))
   else ret tt) s = (Ret tt, after_delay self s).
Proof.
  unfold after_delay.
  by destruct (Q_gt0 (ScraperConfig.delay_between_requests (scraper_config self))).
Qed.

(** The loop test fails: the walk returns what it has. *)
Lemma scrape_pages_done fuel name param max_pages page books s :
  max_pages < page ->
  scrape_pages w self fuel name param max_pages page books s = (Ret books, s).
Proof.
  intros Hlt. destruct fuel; simpl;
    (destruct (Z.leb_spec page max_pages); [lia|done]).
Qed.

(** One iteration of the loop, with the loop test passed. *)
Lemma scrape_pages_step fuel name param max_pages page books s :
  page <= max_pages ->
  scrape_pages w self (S fuel) name param max_pages page books s =
    (let url := _build_category_url self param page in
     let* html_content := _fetch_page w self url None in
     if negb (truthy_opt html_content) then ret books
     else
       let html := default "" html_content in
       let* page_books := _parse_page w self html name in
       match page_books with
       | [] => ret books
       | _ :: _ =>
           let* next_url := _get_next_page_url w self html url in
           if negb (truthy_opt next_url) then ret (books ++ page_books)%list
           else
             let* _ := (fun s => (Ret tt, after_delay self s)) in
             scrape_pages w self fuel name param max_pages (page + 1)
                          (books ++ page_books)%list
       end) s.
Proof.
  intros Hle. simpl.
  destruct (Z.leb_spec page max_pages); [|lia].
  unfold bind.
  destruct (_fetch_page w self _ None s) as [[html|e] s1]; [|done].
  destruct (negb (truthy_opt html)); [done|].
  destruct (_parse_page w self _ name s1) as [[[|b bs]|e] s2]; [done| |done].
  destruct (_get_next_page_url w self _ _ s2) as [[next|e] s3]; [|done].
  destruct (negb (truthy_opt next)); [done|].
  by rewrite after_delay_run.
Qed.

(** Fuel beyond the number of pages left makes no difference. *)
Lemma scrape_pages_fuel name param max_pages : forall fuel1 fuel2 page books s,
  (Z.to_nat (max_pages - page + 1) <= fuel1)%nat ->
  (Z.to_nat (max_pages - page + 1) <= fuel2)%nat ->
  scrape_pages w self fuel1 name param max_pages page books s =
  scrape_pages w self fuel2 name param max_pages page books s.
Proof.
  induction fuel1 as [|fuel1 IH]; intros fuel2 page books s H1 H2.
  - rewrite !scrape_pages_done; [done|lia|lia].
  - destruct (Z.leb_spec page max_pages) as [Hle|Hgt].
    + destruct fuel2 as [|fuel2]; [lia|].
      rewrite !scrape_pages_step by done. cbv zeta. unfold bind.
      destruct (_fetch_page w self _ None s) as [[html|e] s1]; [|done].
      destruct (negb (truthy_opt html)); [done|].
      destruct (_parse_page w self _ name s1) as [[[|b bs]|e] s2]; [done| |done].
      destruct (_get_next_page_url w self _ _ s2) as [[next|e] s3]; [|done].
      destruct (negb (truthy_opt next)); [done|].
      apply IH; lia.
    + rewrite !scrape_pages_done; [done|lia|lia].
Qed.

(** The walk moves on: the page had content, books and a next-page link. *)
Lemma scrape_pages_continue fuel name param max_pages page books s
      h s1 page_books s2 next s3 :
  page <= max_pages ->
  _fetch_page w self (_build_category_url self param page) None s = (Ret (Some h), s1) ->
  PyStr.truthy h = true ->
  _parse_page w self h name s1 = (Ret page_books, s2) ->
  page_books <> [] ->
  _get_next_page_url w self h (_build_category_url self param page) s2 = (Ret next, s3) ->
  truthy_opt next = true ->
  scrape_pages w self (S fuel) name param max_pages page books s =
  scrape_pages w self fuel name param max_pages (page + 1)
               (books ++ page_books)%list (after_delay self s3).
Proof.
  intros Hle Hfetch Hh Hparse Hne Hnext Htruthy.
  rewrite scrape_pages_step by done. cbv zeta. unfold bind.
  rewrite Hfetch. simpl. rewrite Hh. simpl. rewrite Hparse.
  destruct page_books as [|b bs]; [done|].
  rewrite Hnext, Htruthy. done.
Qed.


End Walker.

Section WalkerClaims.

Context (w : World) (self : DataScraper).

Lemma get_next_page_url_state html url s r s' :
  _get_next_page_url w self html url s = (r, s') -> s' = s.
Proof.
  unfold _get_next_page_url, lift, bind.
  destruct (BeautifulSoup w html) as [soup|e]; [|by intros [= _ <-]].
  destruct (Soup.soup_select_one soup _) as [next_link|]; [|by intros [= _ <-]].
  destruct (Soup.get next_link "href") as [next_url|]; [|by intros [= _ <-]].
  destruct (PyStr.truthy next_url); [|by intros [= _ <-]].
  destruct (negb _); by intros [= _ <-].
Qed.

(** The page that uses up the page budget has books and a next-page link:
    with a positive delay configured, the walk sleeps once more and then
    returns. *)
Lemma scrape_pages_sleeps_at_budget fuel name param max_pages books s
      h s1 page_books s2 next :
  let url := _build_category_url self param max_pages in
  _fetch_page w self url None s = (Ret (Some h), s1) ->
  PyStr.truthy h = true ->
  _parse_page w self h name s1 = (Ret page_books, s2) ->
  page_books <> [] ->
  _get_next_page_url w self h url s2 = (Ret next, s2) ->
  truthy_opt next = true ->
  Q_gt0 (ScraperConfig.delay_between_requests (scraper_config self)) = true ->
  scrape_pages w self (S fuel) name param max_pages max_pages books s =
    (Ret (books ++ page_books)%list,
     record [Delay (ScraperConfig.delay_between_requests (scraper_config self))] s2).
Proof.
  intros url Hfetch Hh Hparse Hne Hnext Htruthy Hdelay.
  rewrite (scrape_pages_continue w self fuel name param max_pages max_pages books s
             h s1 page_books s2 next s2); try done; try lia.
  rewrite scrape_pages_done by lia.
  unfold after_delay. by rewrite Hdelay.
Qed.


End WalkerClaims.


(** C8 fails at the page budget: walking one page ([max_pages = 1]) of a
    category whose first page has a book and a next-page link, with the
    default delay of one second, the scraper fetches page 1, sleeps the
    inter-page delay and returns; no request follows that sleep. *)
Lemma scrape_category_sleeps_after_final_page :
  exists books s',
    scrape_category (Samples.world_with Samples.server_two_pages) Samples.periplus
                    "new_releases" "103" (Some 1) Samples.opened
    = (Ret books, s')
    /\ map Book.title books = ["Book 1"]
    /\ trace s' = [Get Samples.url_page1; Delay 1]
    /\ requests s' = 1%nat.
Proof.
  eexists _, _. split; [vm_compute; reflexivity|].
  repeat split; reflexivity.
Qed.

(* ===================================================================== *)
(** ** Properties of the result aggregator                                *)
(* ===================================================================== *)

Section Aggregator.

Context (w : World) (self : DataScraper).

(** Handing the report to the sink neither fails nor touches the errors. *)
Lemma save_results_returns result s :
  exists s', save_results w self result s = (Ret tt, s') /\ errors s' = errors s.
Proof.
  unfold save_results, _save_to_json, _save_to_csv. run_monad.
  destruct (_ || _); destruct (_ || _); simpl;
    try destruct (ScrapingResult.books result); simpl; by eexists.
Qed.


(** [run_scraper] returns a report exactly when the walk returns, and the
    report is built from the walk's books. *)
Lemma run_scraper_returns name max_pages s :
  match scrape_category w self name
          (default name (SiteConfig.category_params (site_config self) !! name))
          max_pages (snd (now w s)) with
  | (Ret books, s1) =>
      exists s',
        run_scraper w self name max_pages s =
          (Ret (ScrapingResult.mk
                  (SiteConfig.name (site_config self)) name
                  (Z.of_nat (length books))
                  (Z.min (requested_max_pages self max_pages) (estimate_pages books))
                  books
                  (wall_clock w (clock_reads s))
                  (wall_clock w (clock_reads s1))
                  (0 <? Z.of_nat (length books))
                  (errors s1)),
           s')
  | (Raise e, s1) => run_scraper w self name max_pages s = (Raise e, s1)
  end.
Proof.
  destruct (scrape_category w self name _ max_pages _) as [[books|e] s1] eqn:Hwalk.
  - unfold run_scraper. rewrite bind_now. cbv beta.
    rewrite (bind_returns _ _ _ _ _ Hwalk).
    rewrite bind_now. cbv beta.
    rewrite bind_get_errors. cbv beta. cbn [errors].
    match goal with
    | |- context [save_results w self ?r] =>
        destruct (save_results_returns r (snd (now w s1))) as (s' & Hsave & _)
    end.
    rewrite (bind_returns _ _ _ _ _ Hsave). by eexists.
  - unfold run_scraper. rewrite bind_now. cbv beta.
    by rewrite (bind_raises _ _ _ _ _ Hwalk).
Qed.

End Aggregator.

Section AggregatorClaims.

Context (w : World) (self : DataScraper).



End AggregatorClaims.




(* ===================================================================== *)
(** ** Properties of the multi-category orchestrator                      *)
(* ===================================================================== *)

Section Dict.

Context {V : Type}.

Lemma dict_set_fresh (k : string) (v : V) (d : dict V) :
  k ∉ map fst d -> dict_set k v d = (d ++ [(k, v)])%list.
Proof.
  induction d as [|[k' v'] d IH]; simpl; [done|].
  intros [Hne Hk]%not_elem_of_cons.
  destruct (String.eqb_spec k k') as [|_]; [done|]. by rewrite IH.
Qed.

Lemma dict_get_here (k : string) (v : V) (d1 d2 : dict V) :
  k ∉ map fst d1 -> dict_get k (d1 ++ (k, v) :: d2)%list = Some v.
Proof.
  induction d1 as [|[k' v'] d1 IH]; simpl.
  - intros _. by rewrite String.eqb_refl.
  - intros [Hne Hk]%not_elem_of_cons.
    destruct (String.eqb_spec k k') as [|_]; [done|]. by apply IH.
Qed.

End Dict.

Section Orchestrator.

Context (w : World) (self : DataScraper).

Lemma settled_keys : forall tasks s,
  map fst (fst (settled tasks s)) = map fst tasks.
Proof.
  induction tasks as [|[name task] rest IH]; intros s; simpl; [done|].
  destruct (settle name task s) as [books s1].
  specialize (IH s1). destruct (settled rest s1) as [d s']. simpl in *.
  by rewrite IH.
Qed.

Lemma settled_app : forall tasks1 tasks2 s,
  settled (tasks1 ++ tasks2) s =
    (fst (settled tasks1 s) ++ fst (settled tasks2 (snd (settled tasks1 s))),
     snd (settled tasks2 (snd (settled tasks1 s))))%list.
Proof.
  induction tasks1 as [|[name task] rest IH]; intros tasks2 s; simpl.
  - by destruct (settled tasks2 s).
  - destruct (settle name task s) as [books s1].
    rewrite IH. by destruct (settled rest s1).
Qed.

(** The loop over the tasks never raises, and files each task's outcome
    under its own key, in order. *)
Lemma await_tasks_settled : forall tasks results s,
  NoDup (map fst results ++ map fst tasks) ->
  await_tasks tasks results s =
    (Ret (results ++ fst (settled tasks s))%list, snd (settled tasks s)).
Proof.
  induction tasks as [|[name task] rest IH]; intros results s Hnodup; simpl.
  - by rewrite app_nil_r.
  - assert (name ∉ map fst results) as Hfresh.
    { apply NoDup_app in Hnodup as (_ & Hdisj & _).
      intros Hin. apply (Hdisj _ Hin). apply elem_of_cons. by left. }
    assert (NoDup (map fst (results ++ [(name, fst (settle name task s))])
                   ++ map fst rest)) as Hnodup'.
    { rewrite map_app. simpl. by rewrite <- app_assoc. }
    unfold bind at 1. unfold try_except, bind, settle in *.
    destruct (task s) as [[books|e] s1]; simpl in *.
    + rewrite (dict_set_fresh _ _ _ Hfresh).
      rewrite (IH _ s1 Hnodup').
      destruct (settled rest s1). simpl. by rewrite <- app_assoc.
    + rewrite (dict_set_fresh _ _ _ Hfresh).
      rewrite (IH _ _ Hnodup').
      destruct (settled rest _). simpl. by rewrite <- app_assoc.
Qed.

Lemma tasks_keys max_pages (categories : dict string) :
  map fst (map (fun '(category_name, category_param) =>
                  (category_name,
                   scrape_category w self category_name category_param max_pages))
               categories) = map fst categories.
Proof. induction categories as [|[n p] l IH]; simpl; [done|]. by rewrite IH. Qed.

Lemma scrape_multiple_categories_settled categories max_pages s :
  NoDup (map fst categories) ->
  scrape_multiple_categories w self categories max_pages s =
    (Ret (fst (settled
                 (map (fun '(category_name, category_param) =>
                         (category_name,
                          scrape_category w self category_name category_param
                                          max_pages))
                      categories) s)),
     snd (settled
            (map (fun '(category_name, category_param) =>
                    (category_name,
                     scrape_category w self category_name category_param max_pages))
                 categories) s)).
Proof.
  intros Hnodup. unfold scrape_multiple_categories.
  rewrite await_tasks_settled; [done|]. simpl. by rewrite tasks_keys.
Qed.

End Orchestrator.

Section OrchestratorClaims.

Context (w : World) (self : DataScraper).

(** C9. For an input mapping (distinct keys, in insertion order),
    [scrape_multiple_categories] always returns, and its result has the
    same keys in the same order. The categories are walked in insertion
    order: the walk of a category starts from the state the categories
    before it left. If that walk returns, its books are the category's
    entry; if it raises, the exception is caught, the entry is the empty
    list and one message naming the category is appended to
    [self.errors]; either way the categories after it are still walked
    and their entries appear in the result. *)
Theorem scrape_multiple_categories_isolated (categories : dict string) max_pages s :
  NoDup (map fst categories) ->
  exists results s',
    scrape_multiple_categories w self categories max_pages s = (Ret results, s')
    /\ map fst results = map fst categories
    /\ forall pre name param post,
         categories = (pre ++ (name, param) :: post)%list ->
         exists results_pre s_pre,
           scrape_multiple_categories w self pre max_pages s = (Ret results_pre, s_pre)
           /\ match scrape_category w self name param max_pages s_pre with
              | (Ret books, s1) =>
                  dict_get name results = Some books
                  /\ scrape_multiple_categories w self (pre ++ [(name, param)])%list
                       max_pages s
                     = (Ret (results_pre ++ [(name, books)])%list, s1)
              | (Raise e, s1) =>
                  dict_get name results = Some []
                  /\ scrape_multiple_categories w self (pre ++ [(name, param)])%list
                       max_pages s
                     = (Ret (results_pre ++ [(name, [])])%list,
                        with_error ("Error scraping category " +:+ name +:+ ": " +:+
                                    str_exn e) s1)
              end.
Proof.
  intros Hnodup.
  rewrite (scrape_multiple_categories_settled w self categories max_pages s Hnodup).
  eexists _, _. split; [reflexivity|]. split.
  - by rewrite settled_keys, tasks_keys.
  - intros pre name param post ->.
    rewrite map_app in Hnodup. simpl in Hnodup.
    apply NoDup_app in Hnodup as (Hpre & Hdisj & _).
    assert (name ∉ map fst pre) as Hfresh.
    { intros Hin. apply (Hdisj _ Hin). apply elem_of_cons. by left. }
    assert (NoDup (map fst (pre ++ [(name, param)]))) as Hpre1.
    { rewrite map_app. simpl. apply NoDup_app.
      split; [done|]. split; [|apply NoDup_singleton].
      intros x Hx [->|Hnil%not_elem_of_nil]%elem_of_cons; done. }
    rewrite (scrape_multiple_categories_settled w self pre max_pages s Hpre).
    eexists _, _. split; [reflexivity|].
    rewrite (scrape_multiple_categories_settled w self _ max_pages s Hpre1).
    rewrite !map_app, !settled_app. simpl.
    set (tasks_pre := map _ pre).
    assert (map fst (fst (settled tasks_pre s)) = map fst pre) as Hkeys.
    { subst tasks_pre. by rewrite settled_keys, tasks_keys. }
    unfold settle.
    destruct (scrape_category w self name param max_pages (snd (settled tasks_pre s)))
      as [[books|e] s1]; simpl.
    + destruct (settled _ s1) as [d s2]. simpl. split; [|done].
      apply dict_get_here. by rewrite Hkeys.
    + destruct (settled _ (with_error _ s1)) as [d s2]. simpl. split; [|done].
      apply dict_get_here. by rewrite Hkeys.
Qed.

End OrchestratorClaims.

Lemma scrape_multiple_categories_isolated_witness :
  exists s',
    scrape_multiple_categories (Samples.world_with Samples.server_broken_103)
      Samples.periplus [("new_releases", "103"); ("bestsellers", "104")] (Some 2)
      Samples.opened
    = (Ret [("new_releases", []);
            ("bestsellers", [Samples.sample_book 2 "bestsellers" 1700000000])], s')
    /\ errors s' = ["Error scraping category new_releases: parser error"].
Proof.
  destruct (scrape_multiple_categories_isolated
              (Samples.world_with Samples.server_broken_103) Samples.periplus
              [("new_releases", "103"); ("bestsellers", "104")] (Some 2)
              Samples.opened) as (results & s' & Hrun & _ & _).
  - repeat constructor; intros Hin%list_elem_of_In; simpl in Hin;
      intuition discriminate.
  - exists s'. rewrite Hrun.
    assert (scrape_multiple_categories (Samples.world_with Samples.server_broken_103)
              Samples.periplus [("new_releases", "103"); ("bestsellers", "104")]
              (Some 2) Samples.opened
            = (Ret [("new_releases", []);
                    ("bestsellers", [Samples.sample_book 2 "bestsellers" 1700000000])],
               mkState ["Error scraping category new_releases: parser error"] true
                       [Get Samples.url_page1; Get Samples.url_104] 2%nat 1%nat))
      as Hval by (vm_compute; reflexivity).
    rewrite Hval in Hrun. injection Hrun as <- <-. split; reflexivity.
Defined.

(* ===================================================================== *)
(** ** More on the page fetcher                                           *)
(* ===================================================================== *)

Lemma continues_refl s : continues s s.
Proof. by repeat split. Qed.

Lemma continues_trans s1 s2 s3 : continues s1 s2 -> continues s2 s3 -> continues s1 s3.
Proof.
  intros (He1 & Ht1 & Hs1 & Hr1 & Hc1) (He2 & Ht2 & Hs2 & Hr2 & Hc2).
  repeat split; [by etrans|by etrans|congruence|lia|lia].
Qed.

Lemma continues_record evs s : continues s (record evs s).
Proof. repeat split; simpl; try done. by apply prefix_app_r. Qed.

Lemma continues_with_error msg s : continues s (with_error msg s).
Proof. repeat split; simpl; try done. by apply prefix_app_r. Qed.

Lemma continues_requested url s : continues s (requested url s).
Proof. repeat split; simpl; try done; [by apply prefix_app_r|lia]. Qed.

Lemma continues_now w s : continues s (snd (now w s)).
Proof. repeat split; simpl; try done. lia. Qed.

Section FetcherMore.

Context (w : World) (self : DataScraper).

(** One attempt, whatever the server does: it never raises, issues at
    most one request, leaves the clock alone, and appends an error only
    if it is the last attempt, and then exactly one. *)
Lemma fetch_attempt_frame url retries attempt s :
  exists r s',
    fetch_attempt w url retries attempt s = (Ret r, s')
    /\ continues s s'
    /\ clock_reads s' = clock_reads s
    /\ (requests s' <= S (requests s))%nat
    /\ (errors s' = errors s
        \/ (attempt = retries /\ exists msg, errors s' = (errors s ++ [msg])%list)).
Proof.
  unfold fetch_attempt, session_get. run_monad.
  destruct (session s) eqn:Hs.
  - destruct (server w (requests s) url) as [r|e]; simpl.
    + destruct (status r =? 200).
      * destruct (text r) as [c|e]; simpl.
        -- eexists _, _. split; [done|]. split; [apply continues_requested|].
           simpl. repeat split; try lia. by left.
        -- destruct (Z.eqb_spec attempt retries) as [->|Hne]; simpl.
           ++ eexists _, _. split; [done|]. split.
              { eapply continues_trans;
                  [apply continues_requested|apply continues_with_error]. }
              simpl. repeat split; try lia. right. by eauto.
           ++ eexists _, _. split; [done|]. split.
              { eapply continues_trans;
                  [apply continues_requested|apply continues_record]. }
              simpl. repeat split; try lia. by left.
      * destruct (status r =? 429); simpl.
        -- eexists _, _. split; [done|]. split.
           { eapply continues_trans;
               [apply continues_requested|apply continues_record]. }
           simpl. repeat split; try lia. by left.
        -- eexists _, _. split; [done|]. split; [apply continues_requested|].
           simpl. repeat split; try lia. by left.
    + destruct (Z.eqb_spec attempt retries) as [->|Hne]; simpl.
      * eexists _, _. split; [done|]. split.
        { eapply continues_trans;
            [apply continues_requested|apply continues_with_error]. }
        simpl. repeat split; try lia. right. by eauto.
      * eexists _, _. split; [done|]. split.
        { eapply continues_trans;
            [apply continues_requested|apply continues_record]. }
        simpl. repeat split; try lia. by left.
  - destruct (Z.eqb_spec attempt retries) as [->|Hne]; simpl.
    + eexists _, _. split; [done|]. split; [apply continues_with_error|].
      simpl. repeat split; try lia. right. by eauto.
    + eexists _, _. split; [done|]. split; [apply continues_record|].
      simpl. repeat split; try lia. by left.
Qed.

Lemma fetch_attempts_frame url retries : forall attempts s,
  NoDup attempts ->
  exists r s',
    fetch_attempts w url retries attempts s = (Ret r, s')
    /\ continues s s'
    /\ clock_reads s' = clock_reads s
    /\ (requests s' <= requests s + length attempts)%nat
    /\ (errors s' = errors s
        \/ (retries ∈ attempts /\ exists msg, errors s' = (errors s ++ [msg])%list)).
Proof.
  induction attempts as [|a l IH]; intros s Hnodup.
  - exists None, s. simpl. repeat split; try done; try lia. by left.
  - apply NoDup_cons in Hnodup as [Ha Hl].
    destruct (fetch_attempt_frame url retries a s)
      as (r1 & s1 & Hstep & Hcont1 & Hclock1 & Hreq1 & Herr1).
    cbn [fetch_attempts]. unfold bind at 1. rewrite Hstep.
    destruct r1 as [content|].
    + eexists _, s1. split; [done|]. split; [done|]. split; [done|].
      split; [simpl; lia|].
      destruct Herr1 as [?|(-> & msg & ?)]; [by left|].
      right. split; [by left|by eauto].
    + destruct (IH s1 Hl) as (r & s' & Hrun & Hcont & Hclock & Hreq & Herr).
      exists r, s'. split; [done|]. split; [by eapply continues_trans|].
      split; [congruence|]. split; [simpl; lia|].
      destruct Herr1 as [He1|(-> & msg1 & He1)].
      * destruct Herr as [He|(Hin & msg & He)].
        -- left. congruence.
        -- right. split; [by right|]. exists msg. congruence.
      * destruct Herr as [He|(Hin & msg & He)]; [|done].
        right. split; [by left|]. exists msg1. congruence.
Qed.

Lemma range_NoDup (n : Z) : NoDup (range n).
Proof.
  unfold range. apply NoDup_fmap_2; [apply _|]. apply NoDup_ListNoDup, seq_NoDup.
Qed.

(** What [_fetch_page] does to the state in every case. *)
Lemma fetch_page_frame url retries s :
  exists r s',
    _fetch_page w self url retries s = (Ret r, s')
    /\ continues s s'
    /\ clock_reads s' = clock_reads s
    /\ (requests s' <= requests s
          + Z.to_nat (default (ScraperConfig.max_retries (scraper_config self)) retries + 1))%nat
    /\ (errors s' = errors s \/ exists msg, errors s' = (errors s ++ [msg])%list).
Proof.
  unfold _fetch_page.
  destruct (fetch_attempts_frame url
              (default (ScraperConfig.max_retries (scraper_config self)) retries)
              (range (default (ScraperConfig.max_retries (scraper_config self)) retries + 1))
              s (range_NoDup _))
    as (r & s' & Hrun & Hcont & Hclock & Hreq & Herr).
  exists r, s'. rewrite range_length in Hreq. repeat split; try done.
  - apply Hcont.
  - apply Hcont.
  - apply Hcont.
  - apply Hcont.
  - apply Hcont.
  - destruct Herr as [?|(_ & ?)]; [by left|by right].
Qed.

(** X1. Whatever the server does, [_fetch_page] returns (it never lets an
    exception out), keeps the session and the clock as they were, keeps
    the recorded errors and effects in place, issues at most
    [retries + 1] requests and appends at most one error. *)
Theorem fetch_page_contained url retries s :
  exists r s',
    _fetch_page w self url retries s = (Ret r, s')
    /\ continues s s'
    /\ clock_reads s' = clock_reads s
    /\ (requests s' <= requests s
          + Z.to_nat (default (ScraperConfig.max_retries (scraper_config self)) retries + 1))%nat
    /\ (errors s' = errors s \/ exists msg, errors s' = (errors s ++ [msg])%list).
Proof. apply fetch_page_frame. Qed.

Lemma range_split (n : Z) (k : nat) :
  0 <= n -> (k <= Z.to_nat n)%nat ->
  range (n + 1) =
    (map Z.of_nat (seq 0 k)
     ++ Z.of_nat k :: map Z.of_nat (seq (S k) (Z.to_nat n - k)))%list.
Proof.
  intros Hn Hk. unfold range.
  replace (Z.to_nat (n + 1)) with (k + S (Z.to_nat n - k))%nat by lia.
  rewrite seq_app, map_app. simpl. done.
Qed.

(** X2. If the request of attempt [k] is the first to be answered with
    status 200 and a readable body, [_fetch_page] returns that body after
    exactly [k + 1] requests, with the request that delivered it as its
    last effect, and appends no error, whatever failed before. *)
Theorem fetch_page_first_content url retries s (k : nat) r content :
  session s = true ->
  0 <= default (ScraperConfig.max_retries (scraper_config self)) retries ->
  (k <= Z.to_nat (default (ScraperConfig.max_retries (scraper_config self)) retries))%nat ->
  (forall j, (j < k)%nat -> delivers (server w (requests s + j) url) = false) ->
  server w (requests s + k) url = Ret r ->
  status r = 200 ->
  text r = Ret content ->
  exists s' evs,
    _fetch_page w self url retries s = (Ret (Some content), s')
    /\ errors s' = errors s
    /\ requests s' = (requests s + k + 1)%nat
    /\ trace s' = (trace s ++ evs ++ [Get url])%list.
Proof.
  intros Hs Hn Hk Hearlier Hr Hst Htx. unfold _fetch_page.
  set (n := default (ScraperConfig.max_retries (scraper_config self)) retries) in *.
  rewrite (range_split n k Hn Hk).
  destruct (fetch_attempts_no_content w url n k 0%nat s
              (Z.of_nat k :: map Z.of_nat (seq (S k) (Z.to_nat n - k))) Hs Hearlier)
    as (s1 & evs & Hrun & He1 & Hs1 & Hr1 & _ & Ht1).
  { intros j Hj. simpl. lia. }
  rewrite Hrun. cbn [fetch_attempts]. unfold bind.
  rewrite <- Hr1 in Hr.
  rewrite (fetch_attempt_content w url n (Z.of_nat k) s1 r content Hs1 Hr Hst Htx).
  eexists _, evs. split; [reflexivity|]. simpl.
  repeat split; [done|lia|]. rewrite Ht1. by rewrite <- app_assoc.
Qed.

(** One attempt outside [async with]: [self.session] is [None], so the
    attempt raises before any request goes out. *)
Lemma fetch_attempt_no_session url retries attempt s :
  session s = false ->
  fetch_attempt w url retries attempt s =
    (Ret None,
     if attempt =? retries
     then with_error (attempt_failed_msg attempt url
                        (Exception "'NoneType' object has no attribute 'get'")) s
     else record [Backoff (2 ^ attempt)] s).
Proof.
  intros Hs. unfold fetch_attempt, session_get. run_monad. rewrite Hs.
  by destruct (attempt =? retries).
Qed.

Lemma fetch_attempts_no_session url retries : forall attempts rest s,
  session s = false ->
  Forall (fun a => a <> retries) attempts ->
  fetch_attempts w url retries (attempts ++ rest) s =
  fetch_attempts w url retries rest (record (backoff_trace attempts) s).
Proof.
  induction attempts as [|a l IH]; intros rest s Hs Hne.
  - simpl. unfold record. simpl. rewrite app_nil_r. by destruct s.
  - apply Forall_cons in Hne as [Ha Hl].
    simpl. unfold bind at 1. rewrite (fetch_attempt_no_session url retries a s Hs).
    apply Z.eqb_neq in Ha. rewrite Ha.
    rewrite IH; [|done|done]. f_equal.
    unfold record. simpl. by rewrite <- app_assoc.
Qed.

(** X3. Used outside [async with] ([self.session] is [None]), with
    [retries >= 0], [_fetch_page] never issues a request: every attempt
    fails on the missing session, the fetcher sleeps [2 ^ attempt] after
    each attempt but the last, returns [None] and appends the one error
    of the last attempt. *)
Theorem fetch_page_without_session url retries s :
  session s = false ->
  0 <= default (ScraperConfig.max_retries (scraper_config self)) retries ->
  _fetch_page w self url retries s =
    (Ret None,
     with_error
       (attempt_failed_msg
          (default (ScraperConfig.max_retries (scraper_config self)) retries) url
          (Exception "'NoneType' object has no attribute 'get'"))
       (record
          (backoff_trace
             (range (default (ScraperConfig.max_retries (scraper_config self)) retries)))
          s)).
Proof.
  intros Hs Hn. unfold _fetch_page.
  set (n := default (ScraperConfig.max_retries (scraper_config self)) retries) in *.
  rewrite (range_succ n Hn).
  rewrite fetch_attempts_no_session; [|done|].
  - cbn [fetch_attempts]. unfold bind.
    rewrite fetch_attempt_no_session by done.
    by rewrite Z.eqb_refl.
  - unfold range. apply Forall_forall. intros a Ha.
    apply list_elem_of_In, in_map_iff in Ha as (i & <- & Hi).
    apply in_seq in Hi. lia.
Qed.

End FetcherMore.

Lemma fetch_page_first_content_witness :
  exists s',
    _fetch_page (Samples.world_with Samples.server_flaky) Samples.periplus
                Samples.url_page1 None Samples.opened
    = (Ret (Some (Samples.html_of Samples.doc_page2)), s')
    /\ errors s' = []
    /\ requests s' = 3%nat.
Proof.
  destruct (fetch_page_first_content (Samples.world_with Samples.server_flaky)
              Samples.periplus Samples.url_page1 None Samples.opened 2%nat
              (mkResponse 200 (Ret (Samples.html_of Samples.doc_page2)))
              (Samples.html_of Samples.doc_page2))
    as (s' & evs & Hrun & Herr & Hreq & _); try reflexivity.
  - simpl. lia.
  - simpl. lia.
  - intros [|[|j]] Hj; [reflexivity|reflexivity|lia].
  - exists s'. repeat split; assumption.
Defined.

Lemma fetch_page_without_session_witness :
  exists s',
    _fetch_page (Samples.world_with Samples.server_two_pages) Samples.periplus
                Samples.url_page1 None init_state = (Ret None, s')
    /\ requests s' = 0%nat
    /\ trace s' = [Backoff 1; Backoff 2; Backoff 4]
    /\ errors s' = ["Attempt 4 failed for " +:+ Samples.url_page1 +:+
                    ": 'NoneType' object has no attribute 'get'"].
Proof.
  eexists. rewrite fetch_page_without_session; [|reflexivity|simpl; lia].
  split; [reflexivity|]. repeat split.
Defined.

(* ===================================================================== *)
(** ** The URL builder                                                    *)
(* ===================================================================== *)

Lemma string_app_cons (x : ascii) (a b : string) :
  String x a +:+ b = String x (a +:+ b).
Proof. reflexivity. Qed.

Lemma string_app_nil_l (b : string) : "" +:+ b = b.
Proof. reflexivity. Qed.

Lemma string_app_nil_r (a : string) : a +:+ "" = a.
Proof.
  induction a as [|x a IH]; [done|]. by rewrite string_app_cons, IH.
Qed.

Lemma string_app_assoc (a b c : string) : (a +:+ b) +:+ c = a +:+ (b +:+ c).
Proof.
  induction a as [|x a IH]; [done|]. by rewrite !string_app_cons, IH.
Qed.

Lemma string_app_length (a b : string) :
  String.length (a +:+ b) = (String.length a + String.length b)%nat.
Proof.
  induction a as [|x a IH]; [done|]. rewrite string_app_cons. simpl. by rewrite IH.
Qed.

Lemma string_app_inj_r (t : string) : forall a b, a +:+ t = b +:+ t -> a = b.
Proof.
  induction a as [|x a IH]; intros [|y b] H.
  - done.
  - apply (f_equal String.length) in H.
    rewrite string_app_nil_l, string_app_cons in H. simpl in H.
    rewrite string_app_length in H. lia.
  - apply (f_equal String.length) in H.
    rewrite string_app_nil_l, string_app_cons in H. simpl in H.
    rewrite string_app_length in H. lia.
  - rewrite !string_app_cons in H. injection H as -> H. f_equal. by apply IH.
Qed.

Lemma quote_plus_head (c : ascii) (s : string) :
  unquote_head (PyStr.quote_plus (String c s)) = Some (c, PyStr.quote_plus s).
Proof. destruct c as [[] [] [] [] [] [] [] []]; reflexivity. Qed.

(** [quote_plus] loses nothing: different strings are quoted differently. *)
Lemma quote_plus_inj : forall s1 s2,
  PyStr.quote_plus s1 = PyStr.quote_plus s2 -> s1 = s2.
Proof.
  induction s1 as [|c1 s1 IH]; intros [|c2 s2] H.
  - done.
  - apply (f_equal unquote_head) in H. by rewrite quote_plus_head in H.
  - apply (f_equal unquote_head) in H. by rewrite quote_plus_head in H.
  - apply (f_equal unquote_head) in H. rewrite !quote_plus_head in H.
    injection H as -> H. f_equal. by apply IH.
Qed.

Section UrlBuilder.

Context (self : DataScraper).

(** The URL is a part that depends on the category followed by a part
    that depends on the page. *)
Lemma build_category_url_parts category_param page :
  _build_category_url self category_param page =
    (SiteConfig.base_url (site_config self) +:+ "?route=product%2Fcategory&anl=")
    +:+ PyStr.quote_plus category_param
    +:+ (if 1 <? page then "&page=" +:+ PyStr.quote_plus (pretty page) else "").
Proof.
  unfold _build_category_url. cbv zeta.
  destruct (1 <? page); cbn [app PyStr.urlencode].
  - change (PyStr.quote_plus "route") with "route".
    change (PyStr.quote_plus "product/category") with "product%2Fcategory".
    change (PyStr.quote_plus "anl") with "anl".
    change (PyStr.quote_plus "page") with "page".
    rewrite !string_app_assoc. reflexivity.
  - change (PyStr.quote_plus "route") with "route".
    change (PyStr.quote_plus "product/category") with "product%2Fcategory".
    change (PyStr.quote_plus "anl") with "anl".
    rewrite !string_app_assoc, string_app_nil_r. reflexivity.
Qed.

(** X4. Every page number up to 1 (zero and negative ones included) is
    fetched at the URL of page 1, which carries no [page] parameter; from
    page 1 on, different pages of a category have different URLs; and for
    any page, different category parameters give different URLs. *)
Theorem build_category_url_distinct :
  (forall category_param page,
     page <= 1 ->
     _build_category_url self category_param page =
     _build_category_url self category_param 1)
  /\ (forall category_param p q,
        1 <= p -> 1 <= q ->
        _build_category_url self category_param p =
        _build_category_url self category_param q ->
        p = q)
  /\ (forall param1 param2 page,
        _build_category_url self param1 page = _build_category_url self param2 page ->
        param1 = param2).
Proof.
  split; [|split].
  - intros category_param page Hle. rewrite !build_category_url_parts.
    destruct (Z.ltb_spec 1 page); [lia|]. done.
  - intros category_param p q Hp Hq. rewrite !build_category_url_parts.
    intros H. apply String.app_inj in H. apply String.app_inj in H.
    destruct (Z.ltb_spec 1 p), (Z.ltb_spec 1 q); try lia.
    + apply String.app_inj in H. apply quote_plus_inj in H.
      by apply (inj pretty) in H.
    + discriminate H.
    + discriminate H.
  - intros param1 param2 page. rewrite !build_category_url_parts.
    intros H. apply String.app_inj in H.
    apply string_app_inj_r in H. by apply quote_plus_inj.
Qed.

End UrlBuilder.

Lemma build_category_url_distinct_witness :
  _build_category_url Samples.periplus "103" 0 = Samples.url_page1
  /\ _build_category_url Samples.periplus "103" 2
     <> _build_category_url Samples.periplus "103" 3.
Proof.
  destruct (build_category_url_distinct Samples.periplus) as (Hfirst & Hpages & _).
  split.
  - rewrite (Hfirst "103" 0); [reflexivity|lia].
  - intros H. apply Hpages in H; lia.
Defined.

(* ===================================================================== *)
(** ** More on the record extractor                                       *)
(* ===================================================================== *)

Lemma try_except_returns {A} (m : M A) (h : exn -> M A) (s s' : state) (a : A) :
  m s = (Ret a, s') -> try_except m h s = (Ret a, s').
Proof. unfold try_except. by intros ->. Qed.

Lemma try_except_raises {A} (m : M A) (h : exn -> M A) (s s' : state) (e : exn) :
  m s = (Raise e, s') -> try_except m h s = h e s'.
Proof. unfold try_except. by intros ->. Qed.

Lemma stamped_mono w lo lo' hi hi' b :
  (lo' <= lo)%nat -> (hi <= hi')%nat -> stamped w lo hi b -> stamped w lo' hi' b.
Proof. intros Hlo Hhi (i & Hi & Hb). exists i. split; [lia|done]. Qed.

Lemma omap_step {A B} (f : A -> option B) (x : A) (l : list A) :
  omap f (x :: l) = match f x with Some y => y :: omap f l | None => omap f l end.
Proof. reflexivity. Qed.

Section ExtractorMore.

Context (w : World) (self : DataScraper).

(** What the [try] block of [_parse_book] does, by the selector table:
    with a field selector missing it raises the [KeyError] of the first
    missing key; with all of them present it builds a book exactly when
    the element offers a title. *)
Lemma parse_book_body_result book_element category s :
  match first_missing self with
  | Some key =>
      parse_book_body w self book_element category s = (Raise (KeyError key), s)
  | None =>
      exists title_sel,
        SiteConfig.selectors (site_config self) !! "title" = Some title_sel
        /\ match title_of title_sel book_element with
           | Some t =>
               exists b,
                 parse_book_body w self book_element category s
                 = (Ret (Some b), snd (now w s))
                 /\ Book.title b = t
                 /\ Book.category b = Some category
                 /\ Book.scraped_at b = wall_clock w (clock_reads s)
           | None =>
               parse_book_body w self book_element category s = (Ret None, s)
           end
  end.
Proof.
  unfold first_missing, field_keys, parse_book_body, selector_for, title_of.
  cbn [List.find].
  destruct (SiteConfig.selectors (site_config self) !! "title") as [st|];
    [|reflexivity].
  destruct (SiteConfig.selectors (site_config self) !! "author") as [sa|];
    [|reflexivity].
  destruct (SiteConfig.selectors (site_config self) !! "price") as [sp|];
    [|reflexivity].
  destruct (SiteConfig.selectors (site_config self) !! "image") as [si|];
    [|reflexivity].
  destruct (SiteConfig.selectors (site_config self) !! "link") as [sl|];
    [|reflexivity].
  destruct (SiteConfig.selectors (site_config self) !! "availability") as [sv|];
    [|reflexivity].
  exists st. split; [done|]. rewrite !bind_ret_l.
  destruct (option_map Soup.get_text_strip (Soup.select_one book_element st))
    as [t|]; [|reflexivity].
  destruct (PyStr.truthy t); [|reflexivity].
  eexists. split; [reflexivity|]. by repeat split.
Qed.

Lemma parse_book_result book_element category s :
  match first_missing self with
  | Some key =>
      _parse_book w self book_element category s
      = (Ret None, with_error ("Error parsing book: " +:+ str_exn (KeyError key)) s)
  | None =>
      exists title_sel,
        SiteConfig.selectors (site_config self) !! "title" = Some title_sel
        /\ match title_of title_sel book_element with
           | Some t =>
               exists b,
                 _parse_book w self book_element category s
                 = (Ret (Some b), snd (now w s))
                 /\ Book.title b = t
                 /\ Book.category b = Some category
                 /\ Book.scraped_at b = wall_clock w (clock_reads s)
           | None =>
               _parse_book w self book_element category s = (Ret None, s)
           end
  end.
Proof.
  pose proof (parse_book_body_result book_element category s) as H.
  unfold _parse_book.
  destruct (first_missing self) as [key|].
  - by rewrite (try_except_raises _ _ _ _ _ H).
  - destruct H as (st & Hst & H). exists st. split; [done|].
    destruct (title_of st book_element) as [t|].
    + destruct H as (b & Hb & ?). exists b.
      by rewrite (try_except_returns _ _ _ _ _ Hb).
    + by rewrite (try_except_returns _ _ _ _ _ H).
Qed.

(** With a field selector missing, every entry is dropped and leaves one
    error behind. *)
Lemma parse_books_incomplete key category : forall elements books s,
  first_missing self = Some key ->
  parse_books w self elements category books s =
    (Ret books,
     mkState (errors s ++ repeat ("Error parsing book: " +:+ str_exn (KeyError key))
                                 (length elements))
             (session s) (trace s) (requests s) (clock_reads s)).
Proof.
  induction elements as [|el l IH]; intros books s Hkey.
  - simpl. unfold ret. rewrite app_nil_r. by destruct s.
  - pose proof (parse_book_result el category s) as H. rewrite Hkey in H.
    cbn [parse_books]. unfold bind at 1. rewrite H.
    rewrite IH by done. simpl. by rewrite <- app_assoc.
Qed.

(** With every field selector present, the entries that offer a title
    become books, in order, each stamped by one reading of the clock;
    nothing else changes. *)
Lemma parse_books_complete title_sel category : forall elements books s,
  first_missing self = None ->
  SiteConfig.selectors (site_config self) !! "title" = Some title_sel ->
  exists new,
    parse_books w self elements category books s =
      (Ret (books ++ new)%list,
       mkState (errors s) (session s) (trace s) (requests s)
               (clock_reads s + length new))
    /\ map Book.title new = omap (title_of title_sel) elements
    /\ Forall (fun b => Book.category b = Some category
                        /\ stamped w (clock_reads s) (clock_reads s + length new) b)
              new.
Proof.
  induction elements as [|el l IH]; intros books s Hkeys Hsel.
  - exists []. simpl. unfold ret. rewrite app_nil_r, Nat.add_0_r.
    split; [by destruct s|]. by split.
  - pose proof (parse_book_result el category s) as H. rewrite Hkeys in H.
    destruct H as (st & Hst & H). rewrite Hsel in Hst. injection Hst as <-.
    cbn [parse_books]. rewrite omap_step. unfold bind at 1.
    destruct (title_of title_sel el) as [t|].
    + destruct H as (b & -> & Htitle & Hcat & Hstamp).
      destruct (IH (books ++ [b])%list (snd (now w s)) Hkeys Hsel)
        as (new & Hrun & Htitles & Hnew).
      exists (b :: new). rewrite Hrun. simpl.
      split; [|split].
      * rewrite <- app_assoc. simpl. do 3 f_equal. lia.
      * by rewrite Htitle, Htitles.
      * constructor.
        -- split; [done|]. exists (clock_reads s). split; [lia|done].
        -- eapply Forall_impl; [exact Hnew|]. simpl.
           intros x [Hc Hx]. split; [done|].
           eapply stamped_mono; [| |exact Hx]; lia.
    + rewrite H. apply IH; done.
Qed.




(** What [_parse_page] does to the state in every case, and what its
    books look like. *)
Lemma parse_page_frame html category s :
  match _parse_page w self html category s with
  | (Ret books, s') =>
      errors s `prefix_of` errors s'
      /\ session s' = session s /\ trace s' = trace s
      /\ requests s' = requests s
      /\ (clock_reads s <= clock_reads s')%nat
      /\ Forall (fun b => Book.title b <> "" /\ Book.category b = Some category
                          /\ stamped w (clock_reads s) (clock_reads s') b) books
  | (Raise e, s') => s' = s
  end.
Proof.
  destruct (_parse_page w self html category s) as [[books|e] s'] eqn:Hrun.
  - pose proof (parse_page_returns w self html category s books s' Hrun) as Htitled.
    revert Hrun. unfold _parse_page, selector_for, lift. unfold bind at 1.
    destruct (BeautifulSoup w html) as [soup|e]; [|done].
    destruct (SiteConfig.selectors (site_config self) !! "product_container")
      as [sel|] eqn:Hsel; [|done].
    rewrite bind_ret_l.
    destruct (first_missing self) as [key|] eqn:Hkeys.
    + rewrite (parse_books_incomplete key category _ [] s Hkeys).
      intros [= <- <-]. simpl. repeat split; try done.
      by apply prefix_app_r.
    + destruct (SiteConfig.selectors (site_config self) !! "title")
        as [title_sel|] eqn:Htitle.
      * destruct (parse_books_complete title_sel category
                    (List.filter is_actual_book (Soup.soup_select soup sel)) [] s
                    Hkeys Htitle) as (new & -> & _ & Hnew).
        intros [= <- <-]. simpl. repeat split; try done; [lia|].
        apply Forall_forall. intros b Hb.
        rewrite Forall_forall in Htitled, Hnew.
        destruct (Hnew b Hb). by repeat split; [apply Htitled|..].
      * exfalso. revert Hkeys. unfold first_missing, field_keys.
        cbn [List.find]. by rewrite Htitle.
  - revert Hrun. unfold _parse_page, selector_for, lift. unfold bind at 1.
    destruct (BeautifulSoup w html) as [soup|e']; [|by intros [= _ <-]].
    destruct (SiteConfig.selectors (site_config self) !! "product_container")
      as [sel|] eqn:Hsel; [|by intros [= _ <-]].
    rewrite bind_ret_l. intros Hrun.
    destruct (parse_books_total w self
                (List.filter is_actual_book (Soup.soup_select soup sel)) category [] s)
      as (bs & s'' & Heq). congruence.
Qed.

End ExtractorMore.



(* ===================================================================== *)
(** ** More on the category walker                                        *)
(* ===================================================================== *)

Lemma continues_after_delay self s : continues s (after_delay self s).
Proof.
  unfold after_delay. destruct (Q_gt0 _); [apply continues_record|apply continues_refl].
Qed.

Lemma after_delay_counters self s :
  requests (after_delay self s) = requests s
  /\ clock_reads (after_delay self s) = clock_reads s
  /\ errors (after_delay self s) = errors s.
Proof. unfold after_delay. by destruct (Q_gt0 _). Qed.

(** [lia] with the product of pages and attempts taken as one unknown. *)
Ltac bound_lia :=
  match goal with
  | |- context [(?a * attempts_per_page ?self)%nat] =>
      generalize dependent (a * attempts_per_page self)%nat; intros; lia
  end.

Section WalkerMore.

Context (w : World) (self : DataScraper).

(** The invariant of the loop of [scrape_category], from any point of a
    walk and whether the walk returns or raises. *)
Lemma scrape_pages_invariant name param max_pages : forall fuel page acc s,
  match scrape_pages w self fuel name param max_pages page acc s with
  | (Ret books, s') =>
      continues s s'
      /\ (requests s' <= requests s
            + Z.to_nat (max_pages - page + 1) * attempts_per_page self)%nat
      /\ exists new,
           books = (acc ++ new)%list
           /\ Forall (fun b => Book.title b <> "" /\ Book.category b = Some name
                               /\ stamped w (clock_reads s) (clock_reads s') b) new
  | (Raise e, s') =>
      continues s s'
      /\ (requests s' <= requests s
            + Z.to_nat (max_pages - page + 1) * attempts_per_page self)%nat
  end.
Proof.
  assert (forall page (acc : list Book.t) s,
            continues s s
            /\ (requests s <= requests s
                  + Z.to_nat (max_pages - page + 1) * attempts_per_page self)%nat
            /\ exists new : list Book.t,
                 acc = (acc ++ new)%list
                 /\ Forall (fun b => Book.title b <> "" /\ Book.category b = Some name
                                     /\ stamped w (clock_reads s) (clock_reads s) b) new)
    as Hstop.
  { intros page acc s. split; [apply continues_refl|].
    split; [apply Nat.le_add_r|]. exists []. by rewrite app_nil_r. }
  induction fuel as [|fuel IH]; intros page acc s.
  - simpl. destruct (page <=? max_pages); apply Hstop.
  - destruct (Z.leb_spec page max_pages) as [Hle|Hgt];
      [|rewrite scrape_pages_done by lia; apply Hstop].
    rewrite scrape_pages_step by done. cbv zeta. unfold bind.
    destruct (fetch_page_frame w self (_build_category_url self param page) None s)
      as (html & s1 & -> & Hc1 & Hclock1 & Hreq1 & _).
    simpl default in Hreq1. fold (attempts_per_page self) in Hreq1.
    assert (Z.to_nat (max_pages - page + 1)
            = S (Z.to_nat (max_pages - (page + 1) + 1))) as Hpages by lia.
    assert (forall k, (S k * attempts_per_page self
                       = attempts_per_page self + k * attempts_per_page self)%nat)
      as Hmul by (intros; lia).
    destruct (negb (truthy_opt html)).
    { split; [done|]. split; [rewrite Hpages, Hmul; bound_lia|].
      exists []. by rewrite app_nil_r. }
    pose proof (parse_page_frame w self (default "" html) name s1) as Hparse.
    destruct (_parse_page w self (default "" html) name s1) as [[page_books|e] s2].
    2:{ subst s2. split; [done|]. rewrite Hpages, Hmul. bound_lia. }
    destruct Hparse as (He2 & Hs2 & Ht2 & Hr2 & Hck2 & Hbooks2).
    assert (continues s1 s2) as Hc2.
    { repeat split; try done; [by rewrite Ht2|lia]. }
    destruct page_books as [|b bs].
    { split; [by eapply continues_trans|]. split; [rewrite Hpages, Hmul; bound_lia|].
      exists []. by rewrite app_nil_r. }
    destruct (_get_next_page_url w self (default "" html)
                (_build_category_url self param page) s2) as [[next|e] s3] eqn:Hnext;
      apply get_next_page_url_state in Hnext; subst s3.
    2:{ split; [by eapply continues_trans|]. rewrite Hpages, Hmul. bound_lia. }
    assert (Forall (fun x => Book.title x <> "" /\ Book.category x = Some name
                             /\ stamped w (clock_reads s) (clock_reads s2) x)
                   (b :: bs)) as Hpage.
    { eapply Forall_impl; [exact Hbooks2|]. simpl. intros x (? & ? & Hx).
      repeat split; try done. eapply stamped_mono; [| |exact Hx]; lia. }
    destruct (negb (truthy_opt next)).
    { split; [by eapply continues_trans|]. split; [rewrite Hpages, Hmul; bound_lia|].
      by exists (b :: bs). }
    destruct (after_delay_counters self s2) as (Hrd & Hcd & _).
    pose proof (continues_after_delay self s2) as Hcd'.
    specialize (IH (page + 1) (acc ++ b :: bs)%list (after_delay self s2)).
    destruct (scrape_pages w self fuel name param max_pages (page + 1)
                (acc ++ b :: bs)%list (after_delay self s2)) as [[books|e] s'].
    + destruct IH as (Hc' & Hreq' & new & -> & Hnew).
      assert (continues s s') as Hall.
      { eapply continues_trans; [exact Hc1|].
        eapply continues_trans; [exact Hc2|].
        eapply continues_trans; [exact Hcd'|exact Hc']. }
      split; [done|]. split; [rewrite Hpages, Hmul; bound_lia|].
      exists ((b :: bs) ++ new)%list. split; [by rewrite <- app_assoc|].
      destruct Hc' as (_ & _ & _ & _ & Hck').
      apply Forall_app. split.
      * eapply Forall_impl; [exact Hpage|]. simpl. intros x (? & ? & Hx).
        repeat split; try done. eapply stamped_mono; [| |exact Hx]; lia.
      * eapply Forall_impl; [exact Hnew|]. simpl. intros x (? & ? & Hx).
        repeat split; try done. eapply stamped_mono; [| |exact Hx]; lia.
    + destruct IH as (Hc' & Hreq'). split; [|rewrite Hpages, Hmul; bound_lia].
      eapply continues_trans; [exact Hc1|].
      eapply continues_trans; [exact Hc2|].
      eapply continues_trans; [exact Hcd'|exact Hc'].
Qed.

(** X7. Whether a walk returns or raises, [scrape_category] keeps the
    errors and effects recorded before it in place (the error list only
    grows), leaves the session as it was, and issues at most
    [max_pages * (max_retries + 1)] requests. *)
Theorem scrape_category_frame name param max_pages s :
  continues s (snd (scrape_category w self name param max_pages s))
  /\ (requests (snd (scrape_category w self name param max_pages s))
      <= requests s
         + Z.to_nat (default (ScraperConfig.max_pages (scraper_config self)) max_pages)
           * Z.to_nat (ScraperConfig.max_retries (scraper_config self) + 1))%nat.
Proof.
  unfold scrape_category.
  set (m := default (ScraperConfig.max_pages (scraper_config self)) max_pages).
  pose proof (scrape_pages_invariant name param m (Z.to_nat m) 1 [] s) as H.
  replace (m - 1 + 1) with m in H by lia.
  destruct (scrape_pages w self (Z.to_nat m) name param m 1 [] s) as [[books|e] s'];
    simpl.
  - destruct H as (? & ? & _). by split.
  - done.
Qed.

(** X8. Every book a walk returns has a non-empty title, carries the name
    of the walked category, and was stamped by a clock reading taken
    during the walk. *)
Theorem scrape_category_books name param max_pages s books s' :
  scrape_category w self name param max_pages s = (Ret books, s') ->
  Forall (fun b => Book.title b <> "" /\ Book.category b = Some name
                   /\ stamped w (clock_reads s) (clock_reads s') b) books.
Proof.
  unfold scrape_category. intros Hrun.
  set (m := default (ScraperConfig.max_pages (scraper_config self)) max_pages) in *.
  pose proof (scrape_pages_invariant name param m (Z.to_nat m) 1 [] s) as H.
  rewrite Hrun in H. by destruct H as (_ & _ & new & -> & Hnew).
Qed.



(** X10. With a negative [max_retries] the fetcher has no attempt to make:
    whatever the server would answer, a walk issues no request, records
    nothing and returns no book. *)
Theorem scrape_category_no_attempts name param max_pages s :
  ScraperConfig.max_retries (scraper_config self) < 0 ->
  scrape_category w self name param max_pages s = (Ret [], s).
Proof.
  intros Hneg. unfold scrape_category.
  set (m := default (ScraperConfig.max_pages (scraper_config self)) max_pages).
  destruct (Z.leb_spec 1 m) as [Hle|Hgt]; [|by rewrite scrape_pages_done by lia].
  destruct (Z.to_nat m) as [|fuel] eqn:Hfuel; [lia|].
  rewrite scrape_pages_step by done. cbv zeta. unfold bind.
  unfold _fetch_page. simpl default. rewrite range_nonpos by lia. done.
Qed.

End WalkerMore.

Lemma scrape_category_books_witness :
  Forall (fun b => Book.title b <> "" /\ Book.category b = Some "new_releases"
                   /\ stamped (Samples.world_with Samples.server_two_pages) 0 2 b)
         [Samples.sample_book 1 "new_releases" 1700000000;
          Samples.sample_book 2 "new_releases" 1700000001].
Proof.
  apply (scrape_category_books (Samples.world_with Samples.server_two_pages)
           Samples.periplus "new_releases" "103" (Some 3) Samples.opened _
           (mkState [] true
                    [Get Samples.url_page1; Delay 1; Get Samples.url_page2]
                    2%nat 2%nat)).
  vm_compute. reflexivity.
Defined.


Lemma scrape_category_no_attempts_witness :
  scrape_category (Samples.world_with Samples.server_two_pages) periplus_no_retries
                  "new_releases" "103" None Samples.opened
  = (Ret [], Samples.opened).
Proof. apply scrape_category_no_attempts. simpl. lia. Defined.

(* ===================================================================== *)
(** ** More on the result aggregator and the sink                         *)
(* ===================================================================== *)

Section AggregatorMore.

Context (w : World) (self : DataScraper).

(** What [save_results] hands to the sink. *)
Lemma save_results_run result s :
  save_results w self result s =
    (Ret tt,
     record
       ((if String.eqb (ScraperConfig.output_format (scraper_config self)) "json"
            || String.eqb (ScraperConfig.output_format (scraper_config self)) "both"
         then [WriteJson (ScraperConfig.output_directory (scraper_config self))
                 (ScrapingResult.site_name result +:+ "_" +:+
                  ScrapingResult.category result +:+ "_" +:+
                  strftime w (wall_clock w (clock_reads s)) +:+ ".json")
                 result]
         else [])
        ++
        (if String.eqb (ScraperConfig.output_format (scraper_config self)) "csv"
            || String.eqb (ScraperConfig.output_format (scraper_config self)) "both"
         then match ScrapingResult.books result with
              | [] => []
              | _ :: _ =>
                  [WriteCsv (ScraperConfig.output_directory (scraper_config self))
                     (ScrapingResult.site_name result +:+ "_" +:+
                      ScrapingResult.category result +:+ "_" +:+
                      strftime w (wall_clock w (clock_reads s)) +:+ ".csv")
                     (ScrapingResult.books result)]
              end
         else []))%list
       (snd (now w s))).
Proof.
  unfold save_results, _save_to_json, _save_to_csv. rewrite bind_now. cbv beta.
  unfold bind, emit, ret, record.
  rewrite !string_app_assoc.
  destruct (_ || _); destruct (_ || _); simpl;
    try destruct (ScrapingResult.books result); simpl;
    rewrite ?app_nil_r, <- ?app_assoc; reflexivity.
Qed.

(** A run whose walk returns: the report and the final state. *)
Lemma run_scraper_run name max_pages s books s1 :
  scrape_category w self name
    (default name (SiteConfig.category_params (site_config self) !! name))
    max_pages (snd (now w s)) = (Ret books, s1) ->
  exists r s',
    run_scraper w self name max_pages s = (Ret r, s')
    /\ r = ScrapingResult.mk
             (SiteConfig.name (site_config self)) name
             (Z.of_nat (length books))
             (Z.min (requested_max_pages self max_pages) (estimate_pages books))
             books
             (wall_clock w (clock_reads s))
             (wall_clock w (clock_reads s1))
             (0 <? Z.of_nat (length books))
             (errors s1)
    /\ save_results w self r (snd (now w s1)) = (Ret tt, s').
Proof.
  intros Hwalk. unfold run_scraper. rewrite bind_now. cbv beta.
  rewrite (bind_returns _ _ _ _ _ Hwalk).
  rewrite bind_now. cbv beta. rewrite bind_get_errors. cbv beta. cbn [errors].
  match goal with
  | |- context [save_results w self ?r] =>
      destruct (save_results_returns w self r (snd (now w s1))) as (s' & Hsave & _);
      exists r, s'
  end.
  rewrite (bind_returns _ _ _ _ _ Hsave). by repeat split.
Qed.


(** X12. The errors in a report are all the errors the scraper holds when
    the walk ends: those recorded before the run (by an earlier run on
    the same scraper, say) come first, unchanged, and the scraper still
    holds exactly the reported list when the run returns. *)
Theorem run_scraper_errors name max_pages s r s' :
  run_scraper w self name max_pages s = (Ret r, s') ->
  errors s `prefix_of` ScrapingResult.errors r
  /\ errors s' = ScrapingResult.errors r.
Proof.
  intros Hrun.
  destruct (scrape_category w self name
              (default name (SiteConfig.category_params (site_config self) !! name))
              max_pages (snd (now w s))) as [[books|e] s1] eqn:Hwalk.
  - destruct (run_scraper_run name max_pages s books s1 Hwalk)
      as (r' & s'' & Hrun' & Hr & Hsave).
    rewrite Hrun in Hrun'. injection Hrun' as <- <-.
    rewrite save_results_run in Hsave. injection Hsave as <-.
    rewrite Hr. cbn [ScrapingResult.errors]. split; [|done].
    revert Hwalk. unfold scrape_category.
    set (m := default (ScraperConfig.max_pages (scraper_config self)) max_pages).
    intros Hwalk.
    pose proof (scrape_pages_invariant w self name
                  (default name (SiteConfig.category_params (site_config self) !! name))
                  m (Z.to_nat m) 1 [] (snd (now w s))) as H.
    rewrite Hwalk in H. destruct H as ((He & _) & _). exact He.
  - pose proof (run_scraper_returns w self name max_pages s) as H.
    rewrite Hwalk in H. congruence.
Qed.

(** X13. With a clock that never runs backwards, a report's
    [scraping_started] is no later than its [scraping_completed], and
    every book of the report was stamped between the two. *)
Theorem run_scraper_timestamps name max_pages s r s' :
  monotone_clock w ->
  run_scraper w self name max_pages s = (Ret r, s') ->
  ScrapingResult.scraping_started r <= ScrapingResult.scraping_completed r
  /\ Forall (fun b => ScrapingResult.scraping_started r <= Book.scraped_at b
                      <= ScrapingResult.scraping_completed r)
            (ScrapingResult.books r).
Proof.
  intros Hclock Hrun.
  destruct (scrape_category w self name
              (default name (SiteConfig.category_params (site_config self) !! name))
              max_pages (snd (now w s))) as [[books|e] s1] eqn:Hwalk.
  - destruct (run_scraper_run name max_pages s books s1 Hwalk)
      as (r' & s'' & Hrun' & Hr & _).
    rewrite Hrun in Hrun'. injection Hrun' as <- <-.
    rewrite Hr. cbn [ScrapingResult.scraping_started
                       ScrapingResult.scraping_completed ScrapingResult.books].
    revert Hwalk. unfold scrape_category.
    set (m := default (ScraperConfig.max_pages (scraper_config self)) max_pages).
    intros Hwalk.
    pose proof (scrape_pages_invariant w self name
                  (default name (SiteConfig.category_params (site_config self) !! name))
                  m (Z.to_nat m) 1 [] (snd (now w s))) as H.
    rewrite Hwalk in H.
    destruct H as ((_ & _ & _ & _ & Hck) & _ & new & -> & Hnew).
    simpl in Hck. split; [apply Hclock; lia|].
    simpl. eapply Forall_impl; [exact Hnew|]. simpl.
    intros b (_ & _ & i & Hi & ->). split; apply Hclock; lia.
  - pose proof (run_scraper_returns w self name max_pages s) as H.
    rewrite Hwalk in H. congruence.
Qed.


End AggregatorMore.


Lemma run_scraper_errors_witness :
  exists r s',
    run_scraper (Samples.world_with Samples.server_down) Samples.periplus
                "new_releases" (Some 1)
                (mkState ["left over from an earlier run"] true [] 0%nat 0%nat)
    = (Ret r, s')
    /\ length (ScrapingResult.errors r) = 2%nat
    /\ "left over from an earlier run" ∈ ScrapingResult.errors r.
Proof.
  destruct (run_scraper (Samples.world_with Samples.server_down) Samples.periplus
              "new_releases" (Some 1)
              (mkState ["left over from an earlier run"] true [] 0%nat 0%nat))
    as [[r|e] s'] eqn:Hrun; [|vm_compute in Hrun; discriminate Hrun].
  exists r, s'. split; [reflexivity|].
  destruct (run_scraper_errors _ _ _ _ _ _ _ Hrun) as [Hprefix _].
  split.
  - vm_compute in Hrun. injection Hrun as <- _. reflexivity.
  - eapply elem_of_prefix; [|exact Hprefix]. simpl. by left.
Defined.

Lemma run_scraper_timestamps_witness :
  exists r s',
    run_scraper (Samples.world_with Samples.server_two_pages) Samples.periplus
                "new_releases" (Some 3) Samples.opened = (Ret r, s')
    /\ ScrapingResult.scraping_started r <= ScrapingResult.scraping_completed r
    /\ length (ScrapingResult.books r) = 2%nat.
Proof.
  destruct (run_scraper (Samples.world_with Samples.server_two_pages) Samples.periplus
              "new_releases" (Some 3) Samples.opened) as [[r|e] s'] eqn:Hrun;
    [|vm_compute in Hrun; discriminate Hrun].
  exists r, s'. split; [reflexivity|].
  destruct (run_scraper_timestamps (Samples.world_with Samples.server_two_pages)
              Samples.periplus "new_releases" (Some 3) Samples.opened r s')
    as [Horder _].
  - intros i j Hij. simpl. lia.
  - exact Hrun.
  - split; [exact Horder|]. vm_compute in Hrun. injection Hrun as <- _. reflexivity.
Defined.

(* ===================================================================== *)
(** ** main.py: configuration and category selection                      *)
(* ===================================================================== *)

Section MainConfig.

Context (DEFAULT : ScraperConfig.t).

(** X15. A numeric option given as zero on the command line does not reach
    the configuration: [create_custom_config] replaces a zero
    [--max-pages], [--retries], [--delay], [--timeout] or [--concurrent]
    by the default, and takes any non-zero value as given. So with
    non-zero defaults the retries and the inter-page delay cannot be
    switched off from the command line. *)
Theorem create_custom_config_zero (args : Main.Args) :
  let config := Main.create_custom_config DEFAULT args in
  (ScraperConfig.max_pages config
   = if Main.max_pages args =? 0 then ScraperConfig.max_pages DEFAULT
     else Main.max_pages args)
  /\ (ScraperConfig.max_retries config
      = if Main.retries args =? 0 then ScraperConfig.max_retries DEFAULT
        else Main.retries args)
  /\ (ScraperConfig.timeout config
      = if Main.timeout args =? 0 then ScraperConfig.timeout DEFAULT
        else Main.timeout args)
  /\ (ScraperConfig.concurrent_requests config
      = if Main.concurrent args =? 0 then ScraperConfig.concurrent_requests DEFAULT
        else Main.concurrent args)
  /\ ((Main.delay args == 0)%Q ->
      ScraperConfig.delay_between_requests config
      = ScraperConfig.delay_between_requests DEFAULT)
  /\ (~ (Main.delay args == 0)%Q ->
      ScraperConfig.delay_between_requests config = Main.delay args)
  /\ (ScraperConfig.max_retries DEFAULT <> 0 ->
      ScraperConfig.max_retries config <> 0)
  /\ (~ (ScraperConfig.delay_between_requests DEFAULT == 0)%Q ->
      ~ (ScraperConfig.delay_between_requests config == 0)%Q).
Proof.
  cbv zeta. unfold Main.create_custom_config, Main.or_int, Main.or_float.
  cbn [ScraperConfig.max_pages ScraperConfig.max_retries ScraperConfig.timeout
       ScraperConfig.concurrent_requests ScraperConfig.delay_between_requests].
  repeat split; try done.
  - intros Hz. apply Qeq_bool_iff in Hz. by rewrite Hz.
  - intros Hnz. destruct (Qeq_bool (Main.delay args) 0) eqn:Hq; [|done].
    by apply Qeq_bool_iff in Hq.
  - intros Hd. destruct (Z.eqb_spec (Main.retries args) 0); done.
  - intros Hd. destruct (Qeq_bool (Main.delay args) 0) eqn:Hq; [done|].
    intros Hz. apply Qeq_bool_iff in Hz. congruence.
Qed.

End MainConfig.

Lemma create_custom_config_zero_witness :
  ScraperConfig.max_retries (Main.create_custom_config DEFAULT_CONFIG Main.args_all_zero) = 3
  /\ ScraperConfig.delay_between_requests
       (Main.create_custom_config DEFAULT_CONFIG Main.args_all_zero) = 1%Q
  /\ ScraperConfig.max_pages (Main.create_custom_config DEFAULT_CONFIG Main.args_all_zero) = 5.
Proof.
  destruct (create_custom_config_zero DEFAULT_CONFIG Main.args_all_zero)
    as (Hpages & Hretries & _ & _ & Hdelay & _).
  split; [exact Hretries|]. split; [|exact Hpages].
  apply Hdelay. reflexivity.
Defined.

Section DictFacts.

Context {V : Type}.

Lemma dict_set_keys (k : string) (v : V) (d : dict V) :
  map fst (dict_set k v d)
  = if bool_decide (k ∈ map fst d) then map fst d else (map fst d ++ [k])%list.
Proof.
  induction d as [|[k' v'] d IH]; simpl; [done|].
  destruct (String.eqb_spec k k') as [->|Hne].
  - rewrite bool_decide_eq_true_2; [done|by left].
  - simpl. rewrite IH. destruct (bool_decide (k ∈ map fst d)) eqn:Hin.
    + apply bool_decide_eq_true_1 in Hin.
      rewrite bool_decide_eq_true_2; [done|by right].
    + apply bool_decide_eq_false_1 in Hin.
      rewrite bool_decide_eq_false_2; [done|].
      by intros [?|?]%elem_of_cons.
Qed.

Lemma dict_set_NoDup (k : string) (v : V) (d : dict V) :
  NoDup (map fst d) -> NoDup (map fst (dict_set k v d)).
Proof.
  intros Hd. rewrite dict_set_keys.
  destruct (bool_decide (k ∈ map fst d)) eqn:Hin; [done|].
  apply bool_decide_eq_false_1 in Hin.
  apply NoDup_app. split; [done|]. split; [|apply NoDup_singleton].
  intros x Hx [->|Hnil%not_elem_of_nil]%elem_of_cons; done.
Qed.

Lemma dict_set_nonempty (k : string) (v : V) (d : dict V) : dict_set k v d <> [].
Proof. destruct d as [|[k' v'] d]; simpl; [done|]. by destruct (String.eqb k k'). Qed.

End DictFacts.

Section MainCategories.

Context (predefined : dict string).

Lemma collect_categories_NoDup : forall pairs categories,
  NoDup (map fst categories) ->
  NoDup (map fst (Main.collect_categories predefined pairs categories)).
Proof.
  induction pairs as [|pair rest IH]; intros categories Hd; simpl; [done|].
  destruct (PyStr.contains ":" pair).
  - destruct (Main.split_once ":" pair) as [name param].
    apply IH. by apply dict_set_NoDup.
  - destruct (dict_get (PyStr.strip pair) predefined) as [param|]; [|by apply IH].
    apply IH. by apply dict_set_NoDup.
Qed.

(** Pieces that are neither a [name:param] pair nor the name of a
    predefined category leave the mapping as it is. *)
Lemma collect_categories_unknown : forall pairs categories,
  Forall (fun pair => PyStr.contains ":" pair = false
                      /\ dict_get (PyStr.strip pair) predefined = None) pairs ->
  Main.collect_categories predefined pairs categories = categories.
Proof.
  induction pairs as [|pair rest IH]; intros categories Hall; simpl; [done|].
  apply Forall_cons in Hall as [[Hc Hp] Hrest]. rewrite Hc, Hp. by apply IH.
Qed.

(** X16. The mapping handed to [scrape_multiple_categories] never has two
    entries for one category name (so long as the predefined categories
    have none), and it is never empty unless no category is predefined:
    the precondition under which the orchestrator files every walk under
    its own key. *)
Theorem categories_from_args_keys (args : Main.Args) :
  NoDup (map fst predefined) ->
  NoDup (map fst (Main.categories_from_args predefined args))
  /\ (predefined <> [] -> Main.categories_from_args predefined args <> []).
Proof.
  intros Hpre. unfold Main.categories_from_args. cbv zeta.
  destruct (truthy_opt (Main.categories args)).
  - pose proof (collect_categories_NoDup
                  (Main.split_char "," (default "" (Main.categories args))) []
                  (NoDup_nil_2)) as Hd.
    destruct (Main.collect_categories predefined _ []) as [|kv l]; by split.
  - by split.
Qed.

(** X17. Without [--categories], with an empty one, or with one that
    holds only names that are not predefined (a misspelt name, say, and
    no [name:param] pair), every predefined category is scraped: unknown
    names are dropped without a word, and an empty selection falls back
    on the whole predefined mapping. *)
Theorem categories_from_args_fallback (args : Main.Args) :
  (truthy_opt (Main.categories args) = false
   \/ Forall (fun pair => PyStr.contains ":" pair = false
                          /\ dict_get (PyStr.strip pair) predefined = None)
             (Main.split_char "," (default "" (Main.categories args)))) ->
  Main.categories_from_args predefined args = predefined.
Proof.
  unfold Main.categories_from_args. cbv zeta. intros [->|Hunknown]; [done|].
  rewrite (collect_categories_unknown _ [] Hunknown).
  by destruct (truthy_opt (Main.categories args)).
Qed.

End MainCategories.

Lemma categories_from_args_keys_witness :
  Main.categories_from_args Main.PERIPLUS_CATEGORY_PARAMS
    (Main.args_with_categories "fiction:201, bestsellers ,fiction:202")
  = [("fiction", "202"); ("bestsellers", "104")]
  /\ NoDup (map fst (Main.categories_from_args Main.PERIPLUS_CATEGORY_PARAMS
                       (Main.args_with_categories
                          "fiction:201, bestsellers ,fiction:202"))).
Proof.
  split; [reflexivity|].
  apply (categories_from_args_keys Main.PERIPLUS_CATEGORY_PARAMS).
  repeat constructor; intros Hin%list_elem_of_In; simpl in Hin;
    intuition discriminate.
Defined.

Lemma categories_from_args_fallback_witness :
  Main.categories_from_args Main.PERIPLUS_CATEGORY_PARAMS
    (Main.args_with_categories "bestseller,new-releases")
  = Main.PERIPLUS_CATEGORY_PARAMS.
Proof.
  apply categories_from_args_fallback. right.
  repeat constructor.
Defined.

Example periplus_category_params_items :
  SiteConfig.category_params PERIPLUS_CONFIG = list_to_map Main.PERIPLUS_CATEGORY_PARAMS.
Proof. reflexivity. Qed.

(* ===================================================================== *)
(** ** More on the multi-category orchestrator                            *)
(* ===================================================================== *)

Section OrchestratorMore.

Context (w : World) (self : DataScraper).

(** Awaiting the walks of [categories] one after the other keeps what was
    recorded before in place, and files under each name only titled books
    of that category. *)
Lemma settled_invariant max_pages : forall (categories : dict string) s,
  continues s
    (snd (settled
            (map (fun '(category_name, category_param) =>
                    (category_name,
                     scrape_category w self category_name category_param max_pages))
                 categories) s))
  /\ Forall (fun entry =>
               Forall (fun b => Book.title b <> ""
                                /\ Book.category b = Some (fst entry)) (snd entry))
            (fst (settled
                    (map (fun '(category_name, category_param) =>
                            (category_name,
                             scrape_category w self category_name category_param
                                             max_pages))
                         categories) s)).
Proof.
  induction categories as [|[name param] rest IH]; intros s.
  - simpl. split; [apply continues_refl|done].
  - cbn [map settled]. unfold settle, scrape_category.
    set (m := default (ScraperConfig.max_pages (scraper_config self)) max_pages).
    pose proof (scrape_pages_invariant w self name param m (Z.to_nat m) 1 [] s) as H.
    destruct (scrape_pages w self (Z.to_nat m) name param m 1 [] s) as [[books|e] s1].
    + destruct H as (Hc & _ & new & -> & Hnew).
      specialize (IH s1). fold m in IH. unfold scrape_category in IH.
      destruct (settled _ s1) as [d s']. simpl in *.
      destruct IH as [Hc' Hd]. split; [by eapply continues_trans|].
      constructor; [|done]. simpl.
      eapply Forall_impl; [exact Hnew|]. by intros b (? & ? & _).
    + destruct H as (Hc & _).
      specialize (IH (with_error ("Error scraping category " +:+ name +:+ ": " +:+
                                  str_exn e) s1)).
      fold m in IH. unfold scrape_category in IH.
      destruct (settled _ (with_error _ s1)) as [d s']. simpl in *.
      destruct IH as [Hc' Hd]. split.
      * eapply continues_trans; [exact Hc|].
        eapply continues_trans; [apply continues_with_error|exact Hc'].
      * constructor; [|done]. by simpl.
Qed.

(** X18. Across the walks of several categories the error list and the
    recorded effects only grow and the session stays as it was; and every
    book filed under a category's name has a non-empty title and carries
    that very name as its category: walks never leak books into one
    another's entry. *)
Theorem scrape_multiple_categories_filed (categories : dict string) max_pages s
        results s' :
  NoDup (map fst categories) ->
  scrape_multiple_categories w self categories max_pages s = (Ret results, s') ->
  continues s s'
  /\ forall name books,
       (name, books) ∈ results ->
       Forall (fun b => Book.title b <> "" /\ Book.category b = Some name) books.
Proof.
  intros Hnodup Hrun.
  rewrite (scrape_multiple_categories_settled w self categories max_pages s Hnodup)
    in Hrun.
  injection Hrun as <- <-.
  destruct (settled_invariant max_pages categories s) as [Hc Hd].
  split; [exact Hc|]. intros name books Hin.
  rewrite Forall_forall in Hd. exact (Hd _ Hin).
Qed.

End OrchestratorMore.

Lemma scrape_multiple_categories_filed_witness :
  Forall (fun b => Book.title b <> "" /\ Book.category b = Some "bestsellers")
         [Samples.sample_book 2 "bestsellers" 1700000000].
Proof.
  destruct (scrape_multiple_categories_filed
              (Samples.world_with Samples.server_broken_103) Samples.periplus
              [("new_releases", "103"); ("bestsellers", "104")] (Some 2)
              Samples.opened
              [("new_releases", []);
               ("bestsellers", [Samples.sample_book 2 "bestsellers" 1700000000])]
              (mkState ["Error scraping category new_releases: parser error"] true
                       [Get Samples.url_page1; Get Samples.url_104] 2%nat 1%nat))
    as [_ Hfiled].
  - repeat constructor; intros Hin%list_elem_of_In; simpl in Hin;
      intuition discriminate.
  - vm_compute. reflexivity.
  - apply Hfiled. right. by left.
Defined.

End Scraper.
